(** * ALX Polly: poll actions and HTTP routes over a record store

    A shallow embedding of [app/lib/actions/poll-actions.ts] and of the
    route handlers under [app/api/], with the hosted database modelled
    as two tables (polls, votes) and the session as the result of
    [supabase.auth.getUser()].  Every handler is a function of the
    request environment and of the database; the mutating ones return
    the new database next to their result.  The page cache that
    [revalidatePath] invalidates is not part of the database and is
    left out. *)

From Stdlib Require Import Bool Arith ZArith List String Ascii Lia.
From Stdlib Require Import Permutation Sorted.
Import ListNotations.
Open Scope string_scope.

Set Implicit Arguments.

(** ** JavaScript strings

    A string is a sequence of code units; the code units modelled are
    the 256 of [ascii] (Latin-1).  [String.length] is [.length]. *)

(** WhiteSpace and LineTerminator code units removed by
    [String.prototype.trim]: TAB, LF, VT, FF, CR, SP and NBSP. *)
Definition is_white_space (c : ascii) : bool :=
  match nat_of_ascii c with
  | 9 | 10 | 11 | 12 | 13 | 32 | 160 => true
  | _ => false
  end.

Fixpoint trimStart (s : string) : string :=
  match s with
  | EmptyString => EmptyString
  | String c rest => if is_white_space c then trimStart rest else s
  end.

Fixpoint trimEnd (s : string) : string :=
  match s with
  | EmptyString => EmptyString
  | String c rest =>
      match trimEnd rest with
      | EmptyString => if is_white_space c then EmptyString else String c EmptyString
      | kept => String c kept
      end
  end.

Definition trim (s : string) : string := trimEnd (trimStart s).

(** Truthiness of a string: [Boolean(s)], [!s] is its negation. *)
Definition truthy (s : string) : bool :=
  match s with
  | EmptyString => false
  | String _ _ => true
  end.

(** ** FormData

    A multimap from field names to string values, in submission order. *)
Definition FormData := list (string * string).

Definition formData_get (name : string) (fd : FormData) : option string :=
  match filter (fun kv => String.eqb (fst kv) name) fd with
  | [] => None
  | kv :: _ => Some (snd kv)
  end.

Definition formData_getAll (name : string) (fd : FormData) : list string :=
  map snd (filter (fun kv => String.eqb (fst kv) name) fd).

(** The form a client submits for a question and a list of options. *)
Definition poll_form (question : string) (options : list string) : FormData :=
  ("question", question) :: map (fun o => ("options", o)) options.

(** ** Data model (the tables of the schema) *)

Record Poll := mkPoll {
  p_id : string;
  p_user_id : string;
  p_question : string;
  p_options : list string;
  p_created_at : Z
}.

Record Vote := mkVote {
  v_id : string;
  v_poll_id : string;
  v_user_id : option string;
  v_option_index : Z;
  v_created_at : Z
}.

Record Db := mkDb {
  polls : list Poll;
  votes : list Vote
}.

(** ** The session: [supabase.auth.getUser()] *)

Record User := mkUser {
  u_id : string;
  u_email : option string
}.

Record AuthResult := mkAuth {
  auth_user : option User;
  auth_error : option string
}.

(** ** The store client

    Each request a handler sends to the store is one of the following;
    the environment decides which of them fail, and with what message. *)
Inductive StoreCall :=
| SelectAllPolls
| SelectUserPolls
| SelectPoll
| SelectVote
| InsertPoll
| InsertVote
| UpdatePoll
| DeletePoll.

Record Env := mkEnv {
  getUser : AuthResult;
  fault : StoreCall -> option string;
  new_id : string;
  now : Z
}.

(** The [{ data, error }] pair of a store response: exactly one of the
    two is set. *)
Inductive StoreResult (A : Type) :=
| Data (rows : A)
| StoreError (message : string).
Arguments Data {A} rows.
Arguments StoreError {A} message.

(** The tables are modelled with the columns and the cascade the
    handlers rely on; the row-level security policies of the schema,
    the [updated_at] column and its trigger, and the uniqueness
    constraint on votes are not part of the model. *)
Module Store.

Definition request {A : Type} (env : Env) (c : StoreCall) (answer : A) : StoreResult A :=
  match fault env c with
  | Some message => StoreError message
  | None => Data answer
  end.

(** [.single()]: the one row selected, an error unless exactly one row
    was. *)
Definition single {A : Type} (r : StoreResult (list A)) : StoreResult A :=
  match r with
  | StoreError message => StoreError message
  | Data [row] => Data row
  | Data _ => StoreError "JSON object requested, multiple (or no) rows returned"
  end.

(** [.order("created_at", { ascending: false })] *)
Fixpoint insert_desc (p : Poll) (l : list Poll) : list Poll :=
  match l with
  | [] => [p]
  | q :: rest =>
      if (p_created_at q <? p_created_at p)%Z then p :: l
      else q :: insert_desc p rest
  end.

Definition order_created_at_desc (l : list Poll) : list Poll :=
  fold_right insert_desc [] l.

Definition poll_has_id (id : string) (p : Poll) : bool := String.eqb (p_id p) id.

Definition poll_owned_by (uid : string) (p : Poll) : bool := String.eqb (p_user_id p) uid.

Definition vote_on_poll (pollId : string) (v : Vote) : bool := String.eqb (v_poll_id v) pollId.

Definition vote_by_user (uid : string) (v : Vote) : bool :=
  match v_user_id v with
  | Some u => String.eqb u uid
  | None => false
  end.

(** [from("polls").select("*").order(...)] *)
Definition select_all_polls (env : Env) (db : Db) : StoreResult (list Poll) :=
  request env SelectAllPolls (order_created_at_desc (polls db)).

(** [from("polls").select("*").eq("user_id", uid).order(...)] *)
Definition select_user_polls (env : Env) (db : Db) (uid : string) : StoreResult (list Poll) :=
  request env SelectUserPolls
    (order_created_at_desc (filter (poll_owned_by uid) (polls db))).

(** [from("polls").select(...).eq("id", id).single()] *)
Definition select_poll (env : Env) (db : Db) (id : string) : StoreResult Poll :=
  single (request env SelectPoll (filter (poll_has_id id) (polls db))).

(** [from("votes").select("id").eq("poll_id", pollId).eq("user_id", uid).single()] *)
Definition select_vote (env : Env) (db : Db) (pollId uid : string) : StoreResult Vote :=
  single (request env SelectVote
    (filter (fun v => vote_on_poll pollId v && vote_by_user uid v) (votes db))).

(** [from("polls").insert([{ user_id, question, options }])]: the store
    supplies [id] and [created_at]. *)
Definition insert_poll (env : Env) (db : Db) (uid question : string) (options : list string)
  : StoreResult unit * Db :=
  match fault env InsertPoll with
  | Some message => (StoreError message, db)
  | None =>
      (Data tt,
       mkDb (polls db ++ [mkPoll (new_id env) uid question options (now env)]) (votes db))
  end.

(** [from("votes").insert([{ poll_id, user_id, option_index }])] *)
Definition insert_vote (env : Env) (db : Db) (pollId : string) (uid : option string) (optionIndex : Z)
  : StoreResult unit * Db :=
  match fault env InsertVote with
  | Some message => (StoreError message, db)
  | None =>
      (Data tt,
       mkDb (polls db) (votes db ++ [mkVote (new_id env) pollId uid optionIndex (now env)]))
  end.

(** [from("polls").update({ question, options }).eq("id", id).eq("user_id", uid)]:
    the rows matching both filters are patched; matching none is not an
    error. *)
Definition update_poll (env : Env) (db : Db) (id uid question : string) (options : list string)
  : StoreResult unit * Db :=
  match fault env UpdatePoll with
  | Some message => (StoreError message, db)
  | None =>
      (Data tt,
       mkDb (map (fun p =>
                    if poll_has_id id p && poll_owned_by uid p
                    then mkPoll (p_id p) (p_user_id p) question options (p_created_at p)
                    else p) (polls db))
            (votes db))
  end.

(** [from("polls").delete().eq(...)...]: the rows matching the filter
    are removed, and with them the votes that reference them
    ([ON DELETE CASCADE]); matching none is not an error. *)
Definition delete_polls (env : Env) (db : Db) (matches : Poll -> bool)
  : StoreResult unit * Db :=
  match fault env DeletePoll with
  | Some message => (StoreError message, db)
  | None =>
      (Data tt,
       mkDb (filter (fun p => negb (matches p)) (polls db))
            (filter (fun v => negb (existsb (fun p => matches p && String.eqb (p_id p) (v_poll_id v))
                                            (polls db)))
                    (votes db)))
  end.

End Store.

(** ** Values shared by the server actions and the route handlers *)

(** A JSON value where a number is expected; the numbers modelled are
    the integers. *)
Inductive json_value :=
| JNumber (n : Z)
| JNotNumber.

(** [typeof v !== 'number' || v < 0] *)
Definition not_number_or_negative (v : json_value) : bool :=
  match v with
  | JNumber n => (n <? 0)%Z
  | JNotNumber => true
  end.

Definition number_of (v : json_value) : Z :=
  match v with
  | JNumber n => n
  | JNotNumber => 0%Z
  end.

(** [{ polls, error }] *)
Record PollsResult := mkPollsResult {
  res_polls : list Poll;
  res_polls_error : option string
}.

(** [{ poll, error, canEdit? }] *)
Record PollResult := mkPollResult {
  res_poll : option Poll;
  res_poll_error : option string;
  res_canEdit : option bool
}.

(** The list every copy of [isUserAdmin] declares. *)
Definition adminEmails : list string := ["admin@alxpolly.com"; "root@alxpolly.com"].

(** [adminEmails.includes(userData.user?.email || '')] *)
Definition isUserAdmin (env : Env) : bool :=
  let email :=
    match auth_user (getUser env) with
    | Some u =>
        match u_email u with
        | Some e => if truthy e then e else ""
        | None => ""
        end
    | None => ""
    end in
  existsb (fun a => String.eqb a email) adminEmails.

(** The loop over the options, which returns at the first bad one. *)
Fixpoint validate_options (options : list string) : option string :=
  match options with
  | [] => None
  | opt :: rest =>
      if negb (truthy opt) || (String.length (trim opt) =? 0)%nat then
        Some "All options must have text."
      else if (200 <? String.length opt)%nat then
        Some "Options must be less than 200 characters."
      else validate_options rest
  end.

(** The validation block that [createPoll], [updatePoll], [POST] and
    [PUT] each spell out: the message of the first check that fails. *)
Definition validate_poll_input (question : option string) (options : list string)
  : option string :=
  match question with
  | None => Some "Question is required."
  | Some q =>
      if negb (truthy q) || (String.length (trim q) =? 0)%nat then
        Some "Question is required."
      else if (500 <? String.length q)%nat then
        Some "Question must be less than 500 characters."
      else if (List.length options <? 2)%nat then
        Some "Please provide at least two options."
      else if (10 <? List.length options)%nat then
        Some "Maximum 10 options allowed."
      else validate_options options
  end.

(** [formData.get("question") as string] once validation has passed. *)
Definition as_string (v : option string) : string :=
  match v with
  | Some s => s
  | None => ""
  end.

(** [user?.id === data.user_id] *)
Definition same_user (user : option User) (owner : string) : bool :=
  match user with
  | Some u => String.eqb (u_id u) owner
  | None => false
  end.

(** ** The server actions: [app/lib/actions/poll-actions.ts] *)
Module Actions.

Definition getAllPolls (env : Env) (db : Db) : PollsResult :=
  match auth_error (getUser env), auth_user (getUser env) with
  | None, Some user =>
      if negb (isUserAdmin env) then mkPollsResult [] (Some "Admin access required.")
      else
        match Store.select_all_polls env db with
        | StoreError _ => mkPollsResult [] (Some "Failed to fetch polls.")
        | Data data => mkPollsResult data None
        end
  | _, _ => mkPollsResult [] (Some "Authentication required.")
  end.

Definition adminDeletePoll (env : Env) (db : Db) (id : string) : option string * Db :=
  match auth_error (getUser env), auth_user (getUser env) with
  | None, Some user =>
      if negb (isUserAdmin env) then (Some "Admin access required.", db)
      else
        match Store.delete_polls env db (Store.poll_has_id id) with
        | (StoreError _, db') => (Some "Failed to delete poll.", db')
        | (Data _, db') => (None, db')
        end
  | _, _ => (Some "Authentication required.", db)
  end.

Definition createPoll (env : Env) (db : Db) (formData : FormData) : option string * Db :=
  let question := formData_get "question" formData in
  let options := filter truthy (formData_getAll "options" formData) in
  match validate_poll_input question options with
  | Some message => (Some message, db)
  | None =>
      match auth_error (getUser env) with
      | Some _ => (Some "Authentication failed.", db)
      | None =>
          match auth_user (getUser env) with
          | None => (Some "You must be logged in to create a poll.", db)
          | Some user =>
              match Store.insert_poll env db (u_id user)
                      (trim (as_string question)) (map trim options) with
              | (StoreError _, db') => (Some "Failed to create poll.", db')
              | (Data _, db') => (None, db')
              end
          end
      end
  end.

Definition getUserPolls (env : Env) (db : Db) : PollsResult :=
  match auth_user (getUser env) with
  | None => mkPollsResult [] (Some "Not authenticated")
  | Some user =>
      match Store.select_user_polls env db (u_id user) with
      | StoreError message => mkPollsResult [] (Some message)
      | Data data => mkPollsResult data None
      end
  end.

Definition getPollById (env : Env) (db : Db) (id : string) : PollResult :=
  let user := auth_user (getUser env) in
  match Store.select_poll env db id with
  | StoreError _ => mkPollResult None (Some "Poll not found.") None
  | Data data => mkPollResult (Some data) None (Some (same_user user (p_user_id data)))
  end.

Definition submitVote (env : Env) (db : Db) (pollId : string) (optionIndex : json_value)
  : option string * Db :=
  if negb (truthy pollId) || not_number_or_negative optionIndex then
    (Some "Invalid vote data.", db)
  else
    match Store.select_poll env db pollId with
    | StoreError _ => (Some "Poll not found.", db)
    | Data poll =>
        if (Z.of_nat (List.length (p_options poll)) <=? number_of optionIndex)%Z then
          (Some "Invalid option selected.", db)
        else
          let user := auth_user (getUser env) in
          let existingVote :=
            match user with
            | Some u =>
                match Store.select_vote env db pollId (u_id u) with
                | Data vote => Some vote
                | StoreError _ => None
                end
            | None => None
            end in
          match existingVote with
          | Some _ => (Some "You have already voted on this poll.", db)
          | None =>
              match Store.insert_vote env db pollId (option_map u_id user)
                      (number_of optionIndex) with
              | (StoreError _, db') => (Some "Failed to submit vote.", db')
              | (Data _, db') => (None, db')
              end
          end
    end.

Definition deletePoll (env : Env) (db : Db) (id : string) : option string * Db :=
  match auth_error (getUser env) with
  | Some _ => (Some "Authentication failed.", db)
  | None =>
      match auth_user (getUser env) with
      | None => (Some "You must be logged in to delete a poll.", db)
      | Some user =>
          match Store.delete_polls env db
                  (fun p => Store.poll_has_id id p && Store.poll_owned_by (u_id user) p) with
          | (StoreError _, db') =>
              (Some "Failed to delete poll. You can only delete your own polls.", db')
          | (Data _, db') => (None, db')
          end
      end
  end.

Definition updatePoll (env : Env) (db : Db) (pollId : string) (formData : FormData)
  : option string * Db :=
  let question := formData_get "question" formData in
  let options := filter truthy (formData_getAll "options" formData) in
  match validate_poll_input question options with
  | Some message => (Some message, db)
  | None =>
      match auth_error (getUser env) with
      | Some _ => (Some "Authentication failed.", db)
      | None =>
          match auth_user (getUser env) with
          | None => (Some "You must be logged in to update a poll.", db)
          | Some user =>
              match Store.select_poll env db pollId with
              | StoreError _ => (Some "Poll not found.", db)
              | Data existingPoll =>
                  if negb (String.eqb (p_user_id existingPoll) (u_id user)) then
                    (Some "You can only edit your own polls.", db)
                  else
                    match Store.update_poll env db pollId (u_id user)
                            (trim (as_string question)) (map trim options) with
                    | (StoreError _, db') => (Some "Failed to update poll.", db')
                    | (Data _, db') => (None, db')
                    end
              end
          end
      end
  end.

End Actions.

(** ** The route handlers: [app/api/] *)

(** [NextResponse.json(body, { status })]; the status is 200 when none
    is given. *)
Record Response (B : Type) := mkResponse {
  body : B;
  status : nat
}.

Definition json {B : Type} (b : B) (st : nat) : Response B := mkResponse b st.

Module Routes.

(** [app/api/polls/route.ts] *)
Module Polls.

Definition GET (env : Env) (db : Db) : Response PollsResult :=
  match auth_user (getUser env) with
  | None => json (mkPollsResult [] (Some "Not authenticated")) 401
  | Some user =>
      match Store.select_user_polls env db (u_id user) with
      | StoreError message => json (mkPollsResult [] (Some message)) 500
      | Data data => json (mkPollsResult data None) 200
      end
  end.

Definition POST (env : Env) (db : Db) (formData : FormData) : Response (option string) * Db :=
  let question := formData_get "question" formData in
  let options := filter truthy (formData_getAll "options" formData) in
  match validate_poll_input question options with
  | Some message => (json (Some message) 400, db)
  | None =>
      match auth_error (getUser env), auth_user (getUser env) with
      | None, Some user =>
          match Store.insert_poll env db (u_id user)
                  (trim (as_string question)) (map trim options) with
          | (StoreError _, db') => (json (Some "Failed to create poll.") 500, db')
          | (Data _, db') => (json None 201, db')
          end
      | _, _ => (json (Some "You must be logged in to create a poll.") 401, db)
      end
  end.

End Polls.

(** [app/api/polls/[id]/route.ts] *)
Module PollId.

Definition GET (env : Env) (db : Db) (id : string) : Response PollResult :=
  let user := auth_user (getUser env) in
  match Store.select_poll env db id with
  | StoreError _ => json (mkPollResult None (Some "Poll not found.") None) 404
  | Data data =>
      json (mkPollResult (Some data) None (Some (same_user user (p_user_id data)))) 200
  end.

Definition DELETE (env : Env) (db : Db) (id : string) : Response (option string) * Db :=
  match auth_error (getUser env), auth_user (getUser env) with
  | None, Some user =>
      match Store.delete_polls env db
              (fun p => Store.poll_has_id id p && Store.poll_owned_by (u_id user) p) with
      | (StoreError _, db') =>
          (json (Some "Failed to delete poll. You can only delete your own polls.") 500, db')
      | (Data _, db') => (json None 200, db')
      end
  | _, _ => (json (Some "You must be logged in to delete a poll.") 401, db)
  end.

Definition PUT (env : Env) (db : Db) (pollId : string) (formData : FormData)
  : Response (option string) * Db :=
  let question := formData_get "question" formData in
  let options := filter truthy (formData_getAll "options" formData) in
  match validate_poll_input question options with
  | Some message => (json (Some message) 400, db)
  | None =>
      match auth_error (getUser env), auth_user (getUser env) with
      | None, Some user =>
          match Store.select_poll env db pollId with
          | StoreError _ => (json (Some "Poll not found.") 404, db)
          | Data existingPoll =>
              if negb (String.eqb (p_user_id existingPoll) (u_id user)) then
                (json (Some "You can only edit your own polls.") 403, db)
              else
                match Store.update_poll env db pollId (u_id user)
                        (trim (as_string question)) (map trim options) with
                | (StoreError _, db') => (json (Some "Failed to update poll.") 500, db')
                | (Data _, db') => (json None 200, db')
                end
          end
      | _, _ => (json (Some "You must be logged in to update a poll.") 401, db)
      end
  end.

End PollId.

(** [app/api/polls/[id]/vote/route.ts] *)
Module Vote.

Definition POST (env : Env) (db : Db) (pollId : string) (optionIndex : json_value)
  : Response (option string) * Db :=
  if negb (truthy pollId) || not_number_or_negative optionIndex then
    (json (Some "Invalid vote data.") 400, db)
  else
    match Store.select_poll env db pollId with
    | StoreError _ => (json (Some "Poll not found.") 404, db)
    | Data poll =>
        if (Z.of_nat (List.length (p_options poll)) <=? number_of optionIndex)%Z then
          (json (Some "Invalid option selected.") 400, db)
        else
          let user := auth_user (getUser env) in
          let existingVote :=
            match user with
            | Some u =>
                match Store.select_vote env db pollId (u_id u) with
                | Data vote => Some vote
                | StoreError _ => None
                end
            | None => None
            end in
          match existingVote with
          | Some _ => (json (Some "You have already voted on this poll.") 409, db)
          | None =>
              match Store.insert_vote env db pollId (option_map u_id user)
                      (number_of optionIndex) with
              | (StoreError _, db') => (json (Some "Failed to submit vote.") 500, db')
              | (Data _, db') => (json None 200, db')
              end
          end
    end.

End Vote.

(** [app/api/admin/polls/route.ts] *)
Module AdminPolls.

Definition GET (env : Env) (db : Db) : Response PollsResult :=
  match auth_error (getUser env), auth_user (getUser env) with
  | None, Some user =>
      if negb (isUserAdmin env) then
        json (mkPollsResult [] (Some "Admin access required.")) 403
      else
        match Store.select_all_polls env db with
        | StoreError _ => json (mkPollsResult [] (Some "Failed to fetch polls.")) 500
        | Data data => json (mkPollsResult data None) 200
        end
  | _, _ => json (mkPollsResult [] (Some "Authentication required.")) 401
  end.

End AdminPolls.

(** [app/api/admin/polls/[id]/route.ts] *)
Module AdminPollId.

Definition DELETE (env : Env) (db : Db) (id : string) : Response (option string) * Db :=
  match auth_error (getUser env), auth_user (getUser env) with
  | None, Some user =>
      if negb (isUserAdmin env) then (json (Some "Admin access required.") 403, db)
      else
        match Store.delete_polls env db (Store.poll_has_id id) with
        | (StoreError _, db') => (json (Some "Failed to delete poll.") 500, db')
        | (Data _, db') => (json None 200, db')
        end
  | _, _ => (json (Some "Authentication required.") 401, db)
  end.

End AdminPollId.

End Routes.

(** ** Reading results against the error kinds of the interface *)

Inductive ErrorKind :=
| InvalidInput
| Unauthenticated
| Forbidden
| NotFound
| Conflict
| StoreFailure.

(** The kind a route reports, by its status code. *)
Definition kind_of_status (st : nat) : option ErrorKind :=
  match st with
  | 400 => Some InvalidInput
  | 401 => Some Unauthenticated
  | 403 => Some Forbidden
  | 404 => Some NotFound
  | 409 => Some Conflict
  | 500 => Some StoreFailure
  | _ => None
  end.

(** The kind a server action reports, by its message: the pairing the
    route handlers make between each message and its status code. *)
Definition message_kinds : list (string * ErrorKind) :=
  [ ("Question is required.", InvalidInput);
    ("Question must be less than 500 characters.", InvalidInput);
    ("Please provide at least two options.", InvalidInput);
    ("Maximum 10 options allowed.", InvalidInput);
    ("All options must have text.", InvalidInput);
    ("Options must be less than 200 characters.", InvalidInput);
    ("Invalid vote data.", InvalidInput);
    ("Invalid option selected.", InvalidInput);
    ("Not authenticated", Unauthenticated);
    ("Authentication required.", Unauthenticated);
    ("Authentication failed.", Unauthenticated);
    ("You must be logged in to create a poll.", Unauthenticated);
    ("You must be logged in to update a poll.", Unauthenticated);
    ("You must be logged in to delete a poll.", Unauthenticated);
    ("Admin access required.", Forbidden);
    ("You can only edit your own polls.", Forbidden);
    ("Poll not found.", NotFound);
    ("You have already voted on this poll.", Conflict);
    ("Failed to fetch polls.", StoreFailure);
    ("Failed to create poll.", StoreFailure);
    ("Failed to update poll.", StoreFailure);
    ("Failed to delete poll.", StoreFailure);
    ("Failed to delete poll. You can only delete your own polls.", StoreFailure);
    ("Failed to submit vote.", StoreFailure) ].

Definition kind_of_message (message : string) : option ErrorKind :=
  match filter (fun mk => String.eqb (fst mk) message) message_kinds with
  | [] => None
  | mk :: _ => Some (snd mk)
  end.

(** The kind of an action's [error] field; [null] is success. *)
Definition kind_of_error (error : option string) : option ErrorKind :=
  match error with
  | Some message => kind_of_message message
  | None => None
  end.

(** An [error] field that is [null] or one of the fixed messages. *)
Definition fixed_error (error : option string) : Prop :=
  error = None \/ exists kind, kind_of_error error = Some kind.

(** ** Well-formed requests and databases *)

(** A caller with a session: [getUser] yields the user and no error. *)
Definition authenticated_as (env : Env) (u : User) : Prop :=
  getUser env = mkAuth (Some u) None.

(** A caller without a session. *)
Definition anonymous (env : Env) : Prop :=
  auth_user (getUser env) = None.

(** The store answers every request of the handler. *)
Definition store_healthy (env : Env) : Prop :=
  forall c, fault env c = None.

(** [polls.id] is a primary key. *)
Definition polls_primary_key (db : Db) : Prop :=
  NoDup (map p_id (polls db)).

(** The [(poll_id, user_id)] pairs of the votes that have a voter. *)
Definition voter_keys (vs : list Vote) : list (string * string) :=
  flat_map (fun v =>
              match v_user_id v with
              | Some u => [(v_poll_id v, u)]
              | None => []
              end) vs.

(** [UNIQUE(poll_id, user_id)] on the votes table. *)
Definition votes_unique (db : Db) : Prop :=
  NoDup (voter_keys (votes db)).

(** Newest first. *)
Definition created_at_desc (l : list Poll) : Prop :=
  StronglySorted (fun a b => (p_created_at b <= p_created_at a)%Z) l.

(** The keys of the rows of a table, for a key that a row may lack. *)
Definition keys_of (A K : Type) (key : A -> option K) (l : list A) : list K :=
  flat_map (fun a => match key a with Some k => [k] | None => [] end) l.

(** ** Concrete requests and databases used by the examples *)

Definition alice : User := mkUser "alice" (Some "alice@example.com").
Definition bob : User := mkUser "bob" (Some "bob@example.com").
Definition root : User := mkUser "root" (Some "root@alxpolly.com").

Definition no_fault : StoreCall -> option string := fun _ => None.

(** A request from a signed-in user, answered by a healthy store. *)
Definition env_of (u : User) : Env := mkEnv (mkAuth (Some u) None) no_fault "p9" 900.

(** A request without a session. *)
Definition env_anonymous : Env := mkEnv (mkAuth None None) no_fault "v9" 900.

(** A message as the database reports a failed connection. *)
Definition store_internal_message : string :=
  "connection to server at db.internal (10.0.3.17), port 5432 failed".

(** A request from alice while every query of the store fails. *)
Definition env_store_down : Env :=
  mkEnv (mkAuth (Some alice) None) (fun _ => Some store_internal_message) "p9" 900.

(** [n] spaces. *)
Fixpoint spaces (n : nat) : string :=
  match n with
  | O => EmptyString
  | S k => String " " (spaces k)
  end.

(** A one-letter question followed by 500 spaces, as a form field
    arrives when a client pads it. *)
Definition padded_question : string := String "Q" (spaces 500).

(** Eleven submitted option fields, nine of them left empty. *)
Definition eleven_options : list string :=
  ["A"; "B"; ""; ""; ""; ""; ""; ""; ""; ""; ""].

Definition poll1 : Poll := mkPoll "p1" "alice" "Favorite color?" ["Red"; "Blue"] 100.
Definition poll2 : Poll := mkPoll "p2" "bob" "Tabs or spaces?" ["Tabs"; "Spaces"; "Both"] 300.
Definition poll3 : Poll := mkPoll "p3" "alice" "Lunch?" ["Soup"; "Salad"] 200.

Definition vote1 : Vote := mkVote "v1" "p1" (Some "bob") 0 150.
Definition vote2 : Vote := mkVote "v2" "p1" None 1 160.

Definition db0 : Db := mkDb [poll1; poll2; poll3] [vote1; vote2].

(** ** The current user: [getCurrentUser] of the auth actions *)

(** [const { data } = await supabase.auth.getUser(); return data.user] *)
Definition getCurrentUser (env : Env) : option User := auth_user (getUser env).

(** ** The session middleware: [lib/supabase/middleware.ts] *)

Record Url := mkUrl {
  pathname : string;
  search : string
}.

(** The response of the middleware: the request goes on, carrying the
    cookies the session client asked to set, or the browser is sent
    elsewhere. *)
Inductive MiddlewareResponse :=
| NextResponse_next (cookies : list (string * string))
| NextResponse_redirect (url : Url).

(** [cookiesToSet] is what the session client passes to [setAll] while
    it validates the session; the list is empty when it never calls. *)
Definition updateSession (env : Env) (cookiesToSet : list (string * string)) (url : Url)
  : MiddlewareResponse :=
  let supabaseResponse := NextResponse_next cookiesToSet in
  match auth_user (getUser env) with
  | None =>
      if negb (String.prefix "/login" (pathname url))
         && negb (String.prefix "/auth" (pathname url))
      then NextResponse_redirect (mkUrl "/login" (search url))
      else supabaseResponse
  | Some _ => supabaseResponse
  end.

(** [middleware.ts] *)
Definition middleware (env : Env) (cookiesToSet : list (string * string)) (url : Url)
  : MiddlewareResponse :=
  updateSession env cookiesToSet url.

(** ** The pages: [app/(dashboard)/] *)

(** What a server component ends in: [notFound()], [redirect(path)], or
    the element it renders, by its props. *)
Inductive PageOutcome (P : Type) :=
| NotFoundPage
| RedirectPage (path : string)
| Render (props : P).
Arguments NotFoundPage {P}.
Arguments RedirectPage {P} path.
Arguments Render {P} props.

(** [if (result.error)] on an [error] field. *)
Definition has_error (error : option string) : bool :=
  match error with
  | Some message => truthy message
  | None => false
  end.

(** The props of [PollDetailClient]. *)
Record PollDetailClientProps := mkPollDetailClientProps {
  props_poll : Poll;
  props_canEdit : bool
}.

(** The state of [AdminPage]. *)
Record AdminPageState := mkAdminPageState {
  st_polls : list Poll;
  st_loading : bool;
  st_deleteLoading : option string;
  st_error : option string;
  st_success : option string
}.

Module Pages.

(** [polls/[id]/edit/page.tsx] *)
Definition EditPollPageContent (env : Env) (db : Db) (id : string) : PageOutcome Poll :=
  let result := Actions.getPollById env db id in
  let user := getCurrentUser env in
  if has_error (res_poll_error result) then NotFoundPage
  else
    match res_poll result with
    | None => NotFoundPage
    | Some poll =>
        match user with
        | None => RedirectPage "/polls"
        | Some u =>
            if negb (String.eqb (p_user_id poll) (u_id u)) then RedirectPage "/polls"
            else Render poll
        end
    end.

(** [polls/[id]/page.tsx] *)
Definition PollDetailPageContent (env : Env) (db : Db) (id : string)
  : PageOutcome PollDetailClientProps :=
  let result := Actions.getPollById env db id in
  if has_error (res_poll_error result) then NotFoundPage
  else
    match res_poll result with
    | None => NotFoundPage
    | Some poll =>
        Render (mkPollDetailClientProps poll
                  match res_canEdit result with
                  | Some true => true
                  | _ => false
                  end)
    end.

(** [handleDelete] of [PollDetailClient]: the path the router is pushed
    to, if any, and the database afterwards. *)
Definition PollDetailClient_handleDelete (env : Env) (db : Db) (props : PollDetailClientProps)
           (confirmed : bool) : option string * Db :=
  if confirmed then
    match Actions.deletePoll env db (p_id (props_poll props)) with
    | (error, db') => if has_error error then (None, db') else (Some "/polls", db')
    end
  else (None, db).

(** [useState] initial values of [AdminPage]. *)
Definition AdminPage_initial : AdminPageState :=
  mkAdminPageState [] true None None None.

(** [fetchAllPolls] of [AdminPage], once it has run to its end. *)
Definition AdminPage_fetchAllPolls (env : Env) (db : Db) (st : AdminPageState)
  : AdminPageState :=
  let result := Actions.getAllPolls env db in
  if has_error (res_polls_error result) then
    mkAdminPageState (st_polls st) false (st_deleteLoading st) (res_polls_error result) None
  else
    mkAdminPageState (res_polls result) false (st_deleteLoading st) None None.

(** [handleDelete] of [AdminPage], once it has run to its end. *)
Definition AdminPage_handleDelete (env : Env) (db : Db) (st : AdminPageState) (pollId : string)
  : AdminPageState * Db :=
  match Actions.adminDeletePoll env db pollId with
  | (error, db') =>
      if has_error error then
        (mkAdminPageState (st_polls st) (st_loading st) None error None, db')
      else
        (mkAdminPageState
           (filter (fun poll => negb (String.eqb (p_id poll) pollId)) (st_polls st))
           (st_loading st) None None (Some "Poll deleted successfully!"),
         db')
  end.

End Pages.

(** ** What the handlers keep true of the tables *)

(** The text limits of a stored poll: a question of 1 to 500
    characters, 2 to 10 options of 1 to 200 characters each. *)
Definition poll_within_limits (p : Poll) : Prop :=
  1 <= String.length (p_question p) <= 500
  /\ 2 <= List.length (p_options p) <= 10
  /\ Forall (fun o => 1 <= String.length o <= 200) (p_options p).

(** A stored poll whose question and options have no surrounding
    whitespace. *)
Definition poll_trimmed (p : Poll) : Prop :=
  trim (p_question p) = p_question p
  /\ Forall (fun o => trim o = o) (p_options p).

Definition polls_well_formed (db : Db) : Prop :=
  Forall (fun p => poll_within_limits p /\ poll_trimmed p) (polls db).

(** Every vote is on a poll of the polls table. *)
Definition votes_reference_polls (db : Db) : Prop :=
  Forall (fun v => In (v_poll_id v) (map p_id (polls db))) (votes db).

(** The polls other than the one with the given id. *)
Definition polls_except (id : string) (l : list Poll) : list Poll :=
  filter (fun p => negb (String.eqb (p_id p) id)) l.

(** The votes on polls other than the one with the given id. *)
Definition votes_except (id : string) (l : list Vote) : list Vote :=
  filter (fun v => negb (String.eqb (v_poll_id v) id)) l.

(** The stores the handlers that write can return for one request
    environment and one store: the five server actions, then their
    route handlers. *)
Definition mutated_stores (env : Env) (db : Db) (id : string) (formData : FormData)
           (optionIndex : json_value) : list Db :=
  [ snd (Actions.createPoll env db formData);
    snd (Actions.updatePoll env db id formData);
    snd (Actions.deletePoll env db id);
    snd (Actions.adminDeletePoll env db id);
    snd (Actions.submitVote env db id optionIndex);
    snd (Routes.Polls.POST env db formData);
    snd (Routes.PollId.PUT env db id formData);
    snd (Routes.PollId.DELETE env db id);
    snd (Routes.AdminPollId.DELETE env db id);
    snd (Routes.Vote.POST env db id optionIndex) ].

(** A request from carol, who has no poll and no vote in [db0]. *)
Definition carol : User := mkUser "carol" (Some "carol@example.com").

Unset Implicit Arguments.

(** * Properties *)

(** Case analysis on every test a handler makes. *)
Ltac case_handler :=
  repeat match goal with
         | |- context [match ?x with _ => _ end] => destruct x eqn:?
         end.

Ltac fixed_message :=
  simpl; solve [ left; reflexivity | right; eexists; reflexivity ].

(** ** Lists and strings *)

Lemma filter_none (A : Type) (f : A -> bool) (l : list A) :
  (forall a, In a l -> f a = false) -> filter f l = [].
Proof.
  induction l as [|x l IH]; intros H; simpl; [reflexivity|].
  rewrite (H x (or_introl eq_refl)). apply IH.
  intros a Ha. apply H. now right.
Qed.

Lemma filter_all (A : Type) (f : A -> bool) (l : list A) :
  (forall a, In a l -> f a = true) -> filter f l = l.
Proof.
  induction l as [|x l IH]; intros H; simpl; [reflexivity|].
  rewrite (H x (or_introl eq_refl)). f_equal. apply IH.
  intros a Ha. apply H. now right.
Qed.

Lemma filter_truthy_idem (l : list string) :
  filter truthy (filter truthy l) = filter truthy l.
Proof.
  apply filter_all. intros a Ha. apply filter_In in Ha. tauto.
Qed.

(** Rows selected by a key that the table holds at most once. *)
Section UniqueKey.

Variables (A K : Type) (key : A -> option K) (test : K -> A -> bool).
Hypothesis test_spec : forall k a, test k a = true <-> key a = Some k.

Lemma key_in_keys_of (l : list A) (a : A) (k : K) :
  In a l -> key a = Some k -> In k (keys_of key l).
Proof.
  intros Ha Hk. unfold keys_of. apply in_flat_map.
  exists a. split; [assumption|]. rewrite Hk. now left.
Qed.

Lemma test_false_of_fresh (l : list A) (k : K) :
  ~ In k (keys_of key l) -> forall a, In a l -> test k a = false.
Proof.
  intros Hk a Ha. destruct (test k a) eqn:E; [|reflexivity].
  exfalso. apply Hk. apply key_in_keys_of with a; [assumption|].
  now apply test_spec.
Qed.

Lemma filter_unique_key (l : list A) (a : A) (k : K) :
  NoDup (keys_of key l) -> In a l -> key a = Some k -> filter (test k) l = [a].
Proof.
  induction l as [|x l IH]; intros Hnd Hin Hk; [contradiction|].
  simpl. unfold keys_of in Hnd. simpl in Hnd. fold (keys_of key l) in Hnd.
  destruct Hin as [-> | Hin].
  - rewrite Hk in Hnd. simpl in Hnd. apply NoDup_cons_iff in Hnd.
    destruct Hnd as [Hfresh _].
    assert (Ht : test k a = true) by now apply test_spec.
    rewrite Ht. f_equal. apply filter_none.
    now apply test_false_of_fresh.
  - destruct (test k x) eqn:Ex.
    + apply test_spec in Ex. rewrite Ex in Hnd. simpl in Hnd.
      apply NoDup_cons_iff in Hnd. destruct Hnd as [Hfresh _].
      exfalso. apply Hfresh. now apply key_in_keys_of with a.
    + apply IH; try assumption.
      destruct (key x); [|assumption].
      simpl in Hnd. now apply NoDup_cons_iff in Hnd.
Qed.

End UniqueKey.

Lemma keys_of_total (A K : Type) (f : A -> K) (l : list A) :
  keys_of (fun a => Some (f a)) l = map f l.
Proof. induction l as [|x l IH]; simpl; [reflexivity | now rewrite <- IH]. Qed.

(** ** The store *)

Lemma filter_poll_by_id (l : list Poll) (p : Poll) :
  NoDup (map p_id l) -> In p l -> filter (Store.poll_has_id (p_id p)) l = [p].
Proof.
  intros Hnd Hin.
  apply filter_unique_key with (key := fun q => Some (p_id q)).
  - intros k a. unfold Store.poll_has_id. rewrite String.eqb_eq.
    split; [intros -> | intros [= ->]]; reflexivity.
  - now rewrite keys_of_total.
  - assumption.
  - reflexivity.
Qed.

Lemma select_poll_present (env : Env) (db : Db) (p : Poll) :
  fault env SelectPoll = None -> polls_primary_key db -> In p (polls db) ->
  Store.select_poll env db (p_id p) = Data p.
Proof.
  intros Hf Hpk Hin. unfold Store.select_poll, Store.request.
  rewrite Hf, filter_poll_by_id by assumption. reflexivity.
Qed.

Lemma select_poll_absent (env : Env) (db : Db) (id : string) :
  (forall p, In p (polls db) -> p_id p <> id) ->
  exists message, Store.select_poll env db id = StoreError message.
Proof.
  intros Habs. unfold Store.select_poll, Store.request.
  destruct (fault env SelectPoll) as [m|]; simpl; [now exists m|].
  rewrite filter_none; [eexists; reflexivity|].
  intros p Hp. unfold Store.poll_has_id. apply String.eqb_neq. now apply Habs.
Qed.

Lemma filter_vote_by_key (l : list Vote) (v : Vote) (uid : string) :
  NoDup (voter_keys l) -> In v l -> v_user_id v = Some uid ->
  filter (fun w => Store.vote_on_poll (v_poll_id v) w && Store.vote_by_user uid w) l = [v].
Proof.
  intros Hu Hin Hv.
  apply filter_unique_key
    with (key := fun w => match v_user_id w with
                          | Some u => Some (v_poll_id w, u)
                          | None => None
                          end)
         (test := fun k w => Store.vote_on_poll (fst k) w && Store.vote_by_user (snd k) w)
         (k := (v_poll_id v, uid)).
  - intros [pid u] w. unfold Store.vote_on_poll, Store.vote_by_user. simpl.
    destruct (v_user_id w) as [u'|].
    + rewrite andb_true_iff, !String.eqb_eq.
      split; [intros [-> ->]; reflexivity | intros [= -> ->]; split; reflexivity].
    + rewrite andb_false_r. split; discriminate.
  - unfold voter_keys in Hu. unfold keys_of.
    erewrite flat_map_ext; [exact Hu|].
    intros w. cbv beta. destruct (v_user_id w); reflexivity.
  - assumption.
  - now rewrite Hv.
Qed.

Lemma select_vote_present (env : Env) (db : Db) (v : Vote) (uid : string) :
  fault env SelectVote = None -> votes_unique db -> In v (votes db) ->
  v_user_id v = Some uid ->
  Store.select_vote env db (v_poll_id v) uid = Data v.
Proof.
  intros Hf Hu Hin Hv. unfold Store.select_vote, Store.request.
  rewrite Hf, filter_vote_by_key by assumption. reflexivity.
Qed.

Lemma delete_polls_no_match (env : Env) (db : Db) (matches : Poll -> bool) :
  fault env DeletePoll = None ->
  (forall p, In p (polls db) -> matches p = false) ->
  Store.delete_polls env db matches = (Data tt, db).
Proof.
  intros Hf Hno. unfold Store.delete_polls. rewrite Hf. f_equal.
  destruct db as [ps vs]. simpl in *. f_equal.
  - apply filter_all. intros p Hp. now rewrite Hno.
  - apply filter_all. intros v _. apply negb_true_iff.
    apply not_true_is_false. intros He. apply existsb_exists in He.
    destruct He as [p [Hp He]]. rewrite (Hno p Hp) in He. discriminate.
Qed.

(** ** Ordering by [created_at] *)

Lemma insert_desc_perm (p : Poll) (l : list Poll) :
  Permutation (p :: l) (Store.insert_desc p l).
Proof.
  induction l as [|q l IH]; simpl; [reflexivity|].
  destruct (p_created_at q <? p_created_at p)%Z; [reflexivity|].
  rewrite perm_swap. now apply perm_skip.
Qed.

Lemma order_created_at_desc_perm (l : list Poll) :
  Permutation l (Store.order_created_at_desc l).
Proof.
  induction l as [|p l IH]; simpl; [reflexivity|].
  rewrite <- insert_desc_perm. now apply perm_skip.
Qed.

Lemma insert_desc_sorted (p : Poll) (l : list Poll) :
  created_at_desc l -> created_at_desc (Store.insert_desc p l).
Proof.
  unfold created_at_desc.
  induction l as [|q l IH]; intros Hs; simpl.
  - constructor; constructor.
  - pose proof (StronglySorted_inv Hs) as [Hl Hq].
    destruct (p_created_at q <? p_created_at p)%Z eqn:E.
    + apply Z.ltb_lt in E. constructor; [assumption|].
      constructor; [lia|].
      eapply Forall_impl; [|exact Hq]. cbv beta. intros r Hr. lia.
    + apply Z.ltb_ge in E. constructor; [now apply IH|].
      eapply Permutation_Forall; [apply insert_desc_perm|].
      constructor; assumption.
Qed.

Lemma order_created_at_desc_sorted (l : list Poll) :
  created_at_desc (Store.order_created_at_desc l).
Proof.
  induction l as [|p l IH]; simpl.
  - constructor.
  - now apply insert_desc_sorted.
Qed.

(** ** Sessions *)

Lemma authenticated_fields (env : Env) (u : User) :
  authenticated_as env u ->
  auth_user (getUser env) = Some u /\ auth_error (getUser env) = None.
Proof. unfold authenticated_as. intros ->. split; reflexivity. Qed.

(** ** The admin capability *)

Lemma isUserAdmin_iff (env : Env) (u : User) :
  auth_user (getUser env) = Some u ->
  isUserAdmin env = true <-> exists e, u_email u = Some e /\ In e adminEmails.
Proof.
  intros Hu. unfold isUserAdmin. rewrite Hu, existsb_exists. split.
  - intros [a [Ha He]]. apply String.eqb_eq in He. subst a.
    destruct (u_email u) as [e|].
    + destruct e as [|c e]; simpl in Ha.
      * exfalso. intuition discriminate.
      * exists (String c e). split; [reflexivity | assumption].
    + exfalso. simpl in Ha. intuition discriminate.
  - intros [e [He Hin]]. exists e. split; [assumption|].
    rewrite He. apply String.eqb_eq.
    destruct e as [|c e]; reflexivity.
Qed.

Lemma isUserAdmin_false (env : Env) (u : User) :
  auth_user (getUser env) = Some u ->
  (forall e, u_email u = Some e -> ~ In e adminEmails) ->
  isUserAdmin env = false.
Proof.
  intros Hu Hno. apply not_true_is_false. intros Ha.
  apply (isUserAdmin_iff env u Hu) in Ha. destruct Ha as [e [He Hin]].
  exact (Hno e He Hin).
Qed.

(** ** Concrete requests and databases *)

Lemma db0_primary_key : polls_primary_key db0.
Proof.
  unfold polls_primary_key. simpl.
  repeat (constructor; [simpl; intuition discriminate|]). constructor.
Qed.

Lemma db0_votes_unique : votes_unique db0.
Proof.
  unfold votes_unique. simpl.
  repeat (constructor; [simpl; intuition discriminate|]). constructor.
Qed.

Lemma env_of_authenticated (u : User) : authenticated_as (env_of u) u.
Proof. reflexivity. Qed.

Lemma env_of_healthy (u : User) : store_healthy (env_of u).
Proof. intros c. reflexivity. Qed.

(** ** Listing every poll (admin) *)

(** C7. A signed-in caller whose email is not in the admin allow-list
    gets "Admin access required." (status 403) and an empty list of
    polls; a signed-in caller whose email is in the allow-list gets,
    when the store answers, every poll of the store (a permutation of
    the polls table, whoever owns each poll), newest first, and no
    error. The server action and the route handler agree. *)
Theorem getAllPolls_admin_only (env : Env) (db : Db) (u : User) :
  authenticated_as env u ->
  ((forall e, u_email u = Some e -> ~ In e adminEmails) ->
     Actions.getAllPolls env db = mkPollsResult [] (Some "Admin access required.")
     /\ Routes.AdminPolls.GET env db
        = json (mkPollsResult [] (Some "Admin access required.")) 403
     /\ kind_of_status 403 = Some Forbidden)
  /\ ((exists e, u_email u = Some e /\ In e adminEmails) ->
      fault env SelectAllPolls = None ->
      exists data,
        Actions.getAllPolls env db = mkPollsResult data None
        /\ Routes.AdminPolls.GET env db = json (mkPollsResult data None) 200
        /\ Permutation (polls db) data
        /\ created_at_desc data).
Proof.
  intros Hauth. destruct (authenticated_fields env u Hauth) as [Hu He].
  split.
  - intros Hno. pose proof (isUserAdmin_false env u Hu Hno) as Hadm.
    unfold Actions.getAllPolls, Routes.AdminPolls.GET.
    rewrite Hu, He, Hadm. simpl. repeat split.
  - intros Hyes Hf. apply (isUserAdmin_iff env u Hu) in Hyes.
    exists (Store.order_created_at_desc (polls db)).
    unfold Actions.getAllPolls, Routes.AdminPolls.GET, Store.select_all_polls, Store.request.
    rewrite Hu, He, Hyes, Hf. simpl.
    repeat split.
    + apply order_created_at_desc_perm.
    + apply order_created_at_desc_sorted.
Qed.

Lemma getAllPolls_admin_only_witness :
  Actions.getAllPolls (env_of bob) db0 = mkPollsResult [] (Some "Admin access required.")
  /\ Actions.getAllPolls (env_of root) db0 = mkPollsResult [poll2; poll3; poll1] None.
Proof.
  split.
  - destruct (getAllPolls_admin_only (env_of bob) db0 bob (env_of_authenticated bob)) as [H _].
    apply H. intros e [= <-]. simpl. intuition discriminate.
  - destruct (getAllPolls_admin_only (env_of root) db0 root (env_of_authenticated root)) as [_ H].
    destruct H as [data [Ha _]].
    + exists "root@alxpolly.com". split; [reflexivity | simpl; tauto].
    + reflexivity.
    + reflexivity.
Defined.

(** ** Reading one poll *)

(** C8. For a poll id present in the store (ids being a primary key and
    the lookup answered), [getPollById] and [GET /polls/{id}] succeed
    for every caller, signed in or not, and return that poll with a
    [canEdit] flag that is true exactly when the session has a user
    whose id is the poll's [user_id]; for a poll id absent from the
    store they fail with "Poll not found." (status 404). *)
Theorem getPollById_public_with_canEdit (env : Env) (db : Db) :
  (forall p,
      fault env SelectPoll = None -> polls_primary_key db -> In p (polls db) ->
      exists canEdit,
        Actions.getPollById env db (p_id p) = mkPollResult (Some p) None (Some canEdit)
        /\ Routes.PollId.GET env db (p_id p)
           = json (mkPollResult (Some p) None (Some canEdit)) 200
        /\ (canEdit = true <->
            exists u, auth_user (getUser env) = Some u /\ u_id u = p_user_id p))
  /\ (forall id,
         (forall p, In p (polls db) -> p_id p <> id) ->
         Actions.getPollById env db id = mkPollResult None (Some "Poll not found.") None
         /\ Routes.PollId.GET env db id
            = json (mkPollResult None (Some "Poll not found.") None) 404
         /\ kind_of_status 404 = Some NotFound).
Proof.
  split.
  - intros p Hf Hpk Hin.
    exists (same_user (auth_user (getUser env)) (p_user_id p)).
    unfold Actions.getPollById, Routes.PollId.GET.
    rewrite (select_poll_present env db p Hf Hpk Hin).
    repeat split.
    + unfold same_user. destruct (auth_user (getUser env)) as [u|]; [|discriminate].
      intros He. apply String.eqb_eq in He. now exists u.
    + intros [u [-> He]]. simpl. now apply String.eqb_eq.
  - intros id Habs.
    destruct (select_poll_absent env db id Habs) as [m Hm].
    unfold Actions.getPollById, Routes.PollId.GET. rewrite Hm. repeat split.
Qed.

Lemma getPollById_public_with_canEdit_witness :
  Actions.getPollById env_anonymous db0 "p1" = mkPollResult (Some poll1) None (Some false)
  /\ Actions.getPollById (env_of alice) db0 "p1" = mkPollResult (Some poll1) None (Some true)
  /\ Actions.getPollById (env_of alice) db0 "p7" = mkPollResult None (Some "Poll not found.") None.
Proof.
  split; [|split].
  - destruct (getPollById_public_with_canEdit env_anonymous db0) as [H _].
    destruct (H poll1 eq_refl db0_primary_key (or_introl eq_refl)) as [b [Ha [_ Hb]]].
    destruct b; [|exact Ha].
    destruct (proj1 Hb eq_refl) as [u [Hu _]]. discriminate Hu.
  - destruct (getPollById_public_with_canEdit (env_of alice) db0) as [H _].
    destruct (H poll1 eq_refl db0_primary_key (or_introl eq_refl)) as [b [Ha [_ Hb]]].
    destruct b; [exact Ha|].
    assert (Ht : false = true); [|discriminate Ht].
    apply Hb. exists alice. split; reflexivity.
  - destruct (getPollById_public_with_canEdit (env_of alice) db0) as [_ H].
    apply H. intros p Hp. simpl in Hp.
    destruct Hp as [<- | [<- | [<- | []]]]; discriminate.
Defined.

(** ** Deleting a poll on the owner path *)

(** The ownership-filtered delete that selects no row reports success
    and changes nothing. *)
Lemma deletePoll_no_row (env : Env) (db : Db) (u : User) (id : string) :
  authenticated_as env u ->
  fault env DeletePoll = None ->
  (forall p, In p (polls db) -> p_id p = id -> p_user_id p <> u_id u) ->
  Actions.deletePoll env db id = (None, db)
  /\ Routes.PollId.DELETE env db id = (json None 200, db).
Proof.
  intros Hauth Hf Hrows. destruct (authenticated_fields env u Hauth) as [Hu He].
  assert (Hdel : Store.delete_polls env db
                   (fun p => Store.poll_has_id id p && Store.poll_owned_by (u_id u) p)
                 = (Data tt, db)).
  { apply delete_polls_no_match; [assumption|].
    intros p Hp. unfold Store.poll_has_id, Store.poll_owned_by.
    destruct (String.eqb_spec (p_id p) id) as [Hid|]; [|reflexivity].
    simpl. apply String.eqb_neq. now apply Hrows. }
  unfold Actions.deletePoll, Routes.PollId.DELETE.
  rewrite Hu, He, Hdel. split; reflexivity.
Qed.

(** C10. For a signed-in caller and a poll id that no poll of the store
    has, [deletePoll] returns a null error and [DELETE /polls/{id}]
    status 200 (the store answering the delete), and the store is
    unchanged: deleting zero rows is not reported as "not found". *)
Theorem deletePoll_missing_id_succeeds (env : Env) (db : Db) (u : User) (id : string) :
  authenticated_as env u ->
  fault env DeletePoll = None ->
  (forall p, In p (polls db) -> p_id p <> id) ->
  Actions.deletePoll env db id = (None, db)
  /\ Routes.PollId.DELETE env db id = (json None 200, db).
Proof.
  intros Hauth Hf Habs. apply deletePoll_no_row with u; try assumption.
  intros p Hp Hid. now apply Habs in Hp.
Qed.

Lemma deletePoll_missing_id_succeeds_witness :
  Actions.deletePoll (env_of alice) db0 "p7" = (None, db0)
  /\ Routes.PollId.DELETE (env_of alice) db0 "p7" = (json None 200, db0).
Proof.
  apply (deletePoll_missing_id_succeeds (env_of alice) db0 alice "p7").
  - reflexivity.
  - reflexivity.
  - intros p Hp. simpl in Hp.
    destruct Hp as [<- | [<- | [<- | []]]]; discriminate.
Defined.

(** C1 (the deletion half, as the code behaves). A signed-in caller who
    is not the owner of poll [p] and calls [deletePoll] or
    [DELETE /polls/{id}] with [p]'s id gets a null error, status 200:
    the poll and the store are unchanged, and nothing tells the caller
    that the deletion was refused. *)
Theorem deletePoll_non_owner_reports_success (env : Env) (db : Db) (u : User) (p : Poll) :
  authenticated_as env u ->
  fault env DeletePoll = None ->
  polls_primary_key db ->
  In p (polls db) ->
  p_user_id p <> u_id u ->
  Actions.deletePoll env db (p_id p) = (None, db)
  /\ Routes.PollId.DELETE env db (p_id p) = (json None 200, db)
  /\ kind_of_error (fst (Actions.deletePoll env db (p_id p))) <> Some Forbidden
  /\ kind_of_status (status (fst (Routes.PollId.DELETE env db (p_id p)))) <> Some Forbidden.
Proof.
  intros Hauth Hf Hpk Hin Hown.
  assert (H : Actions.deletePoll env db (p_id p) = (None, db)
              /\ Routes.PollId.DELETE env db (p_id p) = (json None 200, db)).
  { apply deletePoll_no_row with u; try assumption.
    intros q Hq Hid.
    assert (Hqp : [q] = [p]).
    { rewrite <- (filter_poll_by_id (polls db) q Hpk Hq).
      rewrite Hid. now apply filter_poll_by_id. }
    injection Hqp as ->. assumption. }
  destruct H as [Ha Hr]. rewrite Ha, Hr. repeat split; discriminate.
Qed.

Lemma deletePoll_non_owner_reports_success_witness :
  Actions.deletePoll (env_of bob) db0 "p1" = (None, db0)
  /\ Routes.PollId.DELETE (env_of bob) db0 "p1" = (json None 200, db0).
Proof.
  destruct (deletePoll_non_owner_reports_success (env_of bob) db0 bob poll1)
    as [Ha [Hr _]].
  - reflexivity.
  - reflexivity.
  - exact db0_primary_key.
  - simpl. tauto.
  - discriminate.
  - split; assumption.
Defined.

(** ** The user's own polls *)

(** C2 (as the code behaves). When the store fails the query of
    [getUserPolls] or [GET /polls], the caller receives the store's own
    message, whatever it says, as the [error] of the result. *)
Theorem getUserPolls_returns_store_message (env : Env) (db : Db) (u : User) (message : string) :
  auth_user (getUser env) = Some u ->
  fault env SelectUserPolls = Some message ->
  Actions.getUserPolls env db = mkPollsResult [] (Some message)
  /\ Routes.Polls.GET env db = json (mkPollsResult [] (Some message)) 500.
Proof.
  intros Hu Hf.
  unfold Actions.getUserPolls, Routes.Polls.GET, Store.select_user_polls, Store.request.
  rewrite Hu, Hf. split; reflexivity.
Qed.

Lemma getUserPolls_returns_store_message_witness :
  Actions.getUserPolls env_store_down db0
  = mkPollsResult [] (Some store_internal_message)
  /\ Routes.Polls.GET env_store_down db0
     = json (mkPollsResult [] (Some store_internal_message)) 500.
Proof.
  apply (getUserPolls_returns_store_message env_store_down db0 alice store_internal_message).
  - reflexivity.
  - reflexivity.
Defined.

(** The text about ownership in [deletePoll]'s error is returned
    exactly when the store fails the delete, whoever owns the poll. *)
Lemma deletePoll_error_iff_store_fault (env : Env) (db : Db) (u : User) (id : string) :
  authenticated_as env u ->
  fst (Actions.deletePoll env db id)
  = Some "Failed to delete poll. You can only delete your own polls."
  <-> exists message, fault env DeletePoll = Some message.
Proof.
  intros Hauth. destruct (authenticated_fields env u Hauth) as [Hu He].
  unfold Actions.deletePoll, Store.delete_polls. rewrite Hu, He.
  destruct (fault env DeletePoll) as [m|]; simpl; split.
  - intros _. now exists m.
  - reflexivity.
  - discriminate.
  - intros [m Hm]. discriminate.
Qed.

(** ** Forms and their validation *)

Lemma formData_get_poll_form (q : string) (opts : list string) :
  formData_get "question" (poll_form q opts) = Some q.
Proof. reflexivity. Qed.

Lemma formData_getAll_poll_form (q : string) (opts : list string) :
  formData_getAll "options" (poll_form q opts) = opts.
Proof.
  unfold formData_getAll, poll_form.
  change (filter _ (("question", q) :: ?l)) with (filter (fun kv => String.eqb (fst kv) "options") l).
  induction opts as [|o opts IH]; [reflexivity|].
  change (map snd (("options", o) :: filter (fun kv => String.eqb (fst kv) "options")
                                       (map (fun o => ("options", o)) opts)) = o :: opts).
  simpl. now rewrite IH.
Qed.

Lemma trim_length_pos_truthy (s : string) :
  1 <= String.length (trim s) -> truthy s = true.
Proof. destruct s; simpl; [lia | reflexivity]. Qed.

Lemma validate_options_ok (l : list string) :
  Forall (fun o => 1 <= String.length (trim o) /\ String.length o <= 200) l ->
  validate_options l = None.
Proof.
  induction 1 as [|o l [Hne Hlen] _ IH]; simpl; [reflexivity|].
  rewrite (trim_length_pos_truthy o Hne). simpl.
  destruct (Nat.eqb_spec (String.length (trim o)) 0) as [E|_]; [lia|].
  destruct (Nat.ltb_spec 200 (String.length o)) as [E|_]; [lia|].
  exact IH.
Qed.

Lemma validate_options_invalid (l : list string) (message : string) :
  validate_options l = Some message -> kind_of_message message = Some InvalidInput.
Proof.
  induction l as [|o l IH]; simpl; [discriminate|].
  destruct (negb (truthy o) || (String.length (trim o) =? 0)%nat).
  - intros [= <-]. reflexivity.
  - destruct (200 <? String.length o)%nat; [|exact IH].
    intros [= <-]. reflexivity.
Qed.

Lemma validate_poll_input_invalid (question : option string) (options : list string)
      (message : string) :
  validate_poll_input question options = Some message ->
  kind_of_message message = Some InvalidInput.
Proof.
  unfold validate_poll_input. destruct question as [q|]; [|intros [= <-]; reflexivity].
  destruct (negb (truthy q) || (String.length (trim q) =? 0)%nat); [intros [= <-]; reflexivity|].
  destruct (500 <? String.length q)%nat; [intros [= <-]; reflexivity|].
  destruct (List.length options <? 2)%nat; [intros [= <-]; reflexivity|].
  destruct (10 <? List.length options)%nat; [intros [= <-]; reflexivity|].
  apply validate_options_invalid.
Qed.

Lemma validate_options_too_long (l : list string) :
  Exists (fun o => 200 < String.length o) l -> validate_options l <> None.
Proof.
  induction 1 as [o l Hlong | o l _ IH]; simpl.
  - destruct (negb (truthy o) || (String.length (trim o) =? 0)%nat); [discriminate|].
    destruct (Nat.ltb_spec 200 (String.length o)) as [_|E]; [discriminate | lia].
  - destruct (negb (truthy o) || (String.length (trim o) =? 0)%nat); [discriminate|].
    destruct (200 <? String.length o)%nat; [discriminate | exact IH].
Qed.

Lemma too_long_survives_filter (l : list string) :
  Exists (fun o => 200 < String.length o) l ->
  Exists (fun o => 200 < String.length o) (filter truthy l).
Proof.
  rewrite !Exists_exists. intros [o [Hin Hlong]]. exists o. split; [|assumption].
  apply filter_In. split; [assumption|]. destruct o; simpl in *; [lia | reflexivity].
Qed.

(** The input the checks accept. *)
Lemma validate_poll_input_ok (q : string) (options : list string) :
  1 <= String.length (trim q) -> String.length q <= 500 ->
  2 <= List.length options <= 10 ->
  Forall (fun o => 1 <= String.length (trim o) /\ String.length o <= 200) options ->
  validate_poll_input (Some q) options = None.
Proof.
  intros Hne Hlen Hcount Hopts. unfold validate_poll_input.
  rewrite (trim_length_pos_truthy q Hne). simpl.
  destruct (Nat.eqb_spec (String.length (trim q)) 0) as [E|_]; [lia|].
  destruct (Nat.ltb_spec 500 (String.length q)) as [E|_]; [lia|].
  destruct (Nat.ltb_spec (List.length options) 2) as [E|_]; [lia|].
  destruct (Nat.ltb_spec 10 (List.length options)) as [E|_]; [lia|].
  now apply validate_options_ok.
Qed.

(** The input the checks refuse. *)
Lemma validate_poll_input_refuses (q : string) (options : list string) :
  500 < String.length q
  \/ List.length options < 2
  \/ 10 < List.length options
  \/ Exists (fun o => 200 < String.length o) options ->
  exists message,
    validate_poll_input (Some q) options = Some message
    /\ kind_of_message message = Some InvalidInput.
Proof.
  intros Hbad.
  destruct (validate_poll_input (Some q) options) as [m|] eqn:Ev.
  - exists m. split; [reflexivity|]. now apply validate_poll_input_invalid in Ev.
  - exfalso. unfold validate_poll_input in Ev.
    destruct (negb (truthy q) || (String.length (trim q) =? 0)%nat); [discriminate|].
    destruct (Nat.ltb_spec 500 (String.length q)) as [|Hq]; [discriminate|].
    destruct (Nat.ltb_spec (List.length options) 2) as [|Hlo]; [discriminate|].
    destruct (Nat.ltb_spec 10 (List.length options)) as [|Hhi]; [discriminate|].
    destruct Hbad as [H | [H | [H | H]]]; try lia.
    now apply validate_options_too_long in H.
Qed.

(** ** Creating and updating a poll *)

(** C3 as stated fails: a question whose trimmed length is 1 is
    refused when its untrimmed length exceeds 500. *)
Lemma createPoll_rejects_padded_question :
  String.length (trim padded_question) = 1
  /\ Forall (fun o => 1 <= String.length (trim o) <= 200) ["Red"; "Blue"]
  /\ authenticated_as (env_of alice) alice
  /\ store_healthy (env_of alice)
  /\ Actions.createPoll (env_of alice) db0 (poll_form padded_question ["Red"; "Blue"])
     = (Some "Question must be less than 500 characters.", db0)
  /\ Routes.Polls.POST (env_of alice) db0 (poll_form padded_question ["Red"; "Blue"])
     = (json (Some "Question must be less than 500 characters.") 400, db0).
Proof.
  split; [vm_compute; reflexivity|].
  split; [repeat constructor|].
  split; [reflexivity|].
  split; [apply env_of_healthy|].
  split; vm_compute; reflexivity.
Qed.

(** C3, amended. For a signed-in caller, a question of at most 500
    characters that is not empty after trimming, and 2 to 10 options of
    at most 200 characters each, none empty after trimming, [createPoll]
    and [POST /polls] succeed when the store accepts the insert, and the
    one poll added to the store has the caller as owner, the trimmed
    question and the trimmed options in their submitted order. *)
Theorem createPoll_stores_trimmed_input (env : Env) (db : Db) (u : User)
        (q : string) (opts : list string) :
  authenticated_as env u ->
  fault env InsertPoll = None ->
  1 <= String.length (trim q) -> String.length q <= 500 ->
  2 <= List.length opts <= 10 ->
  Forall (fun o => 1 <= String.length (trim o) /\ String.length o <= 200) opts ->
  let created := mkPoll (new_id env) (u_id u) (trim q) (map trim opts) (now env) in
  Actions.createPoll env db (poll_form q opts)
  = (None, mkDb (polls db ++ [created]) (votes db))
  /\ Routes.Polls.POST env db (poll_form q opts)
     = (json None 201, mkDb (polls db ++ [created]) (votes db)).
Proof.
  intros Hauth Hf Hne Hlen Hcount Hopts created.
  destruct (authenticated_fields env u Hauth) as [Hu He].
  assert (Hkeep : filter truthy opts = opts).
  { apply filter_all. intros o Ho. rewrite Forall_forall in Hopts.
    apply trim_length_pos_truthy. now apply Hopts. }
  unfold Actions.createPoll, Routes.Polls.POST, Store.insert_poll.
  rewrite formData_get_poll_form, formData_getAll_poll_form, Hkeep.
  rewrite (validate_poll_input_ok q opts Hne Hlen Hcount Hopts).
  rewrite Hu, He, Hf. split; reflexivity.
Qed.

Lemma createPoll_stores_trimmed_input_witness :
  Actions.createPoll (env_of alice) db0 (poll_form "  Favorite season? " ["Summer "; " Winter"])
  = (None,
     mkDb (polls db0 ++ [mkPoll "p9" "alice" "Favorite season?" ["Summer"; "Winter"] 900])
          (votes db0)).
Proof.
  apply (createPoll_stores_trimmed_input (env_of alice) db0 alice
           "  Favorite season? " ["Summer "; " Winter"]).
  - reflexivity.
  - reflexivity.
  - vm_compute. lia.
  - vm_compute. lia.
  - simpl. lia.
  - repeat constructor; vm_compute; lia.
Defined.

(** C4 as stated fails: a submitted options list of eleven entries, nine
    of them empty, is accepted, by [createPoll] (a poll is created) and
    by [updatePoll] (the poll is modified). *)
Lemma eleven_options_accepted :
  List.length eleven_options = 11
  /\ Actions.createPoll (env_of alice) db0 (poll_form "Best letter?" eleven_options)
     = (None,
        mkDb (polls db0 ++ [mkPoll "p9" "alice" "Best letter?" ["A"; "B"] 900]) (votes db0))
  /\ Actions.updatePoll (env_of alice) db0 "p1" (poll_form "Best letter?" eleven_options)
     = (None,
        mkDb [mkPoll "p1" "alice" "Best letter?" ["A"; "B"] 100; poll2; poll3] (votes db0))
  /\ fst (Routes.Polls.POST (env_of alice) db0 (poll_form "Best letter?" eleven_options))
     = json None 201
  /\ fst (Routes.PollId.PUT (env_of alice) db0 "p1" (poll_form "Best letter?" eleven_options))
     = json None 200.
Proof. repeat split; vm_compute; reflexivity. Qed.

(** C4, amended. When the question has more than 500 characters, or
    the options that are not empty strings number fewer than 2 or more
    than 10, or some option has more than 200 characters, [createPoll],
    [updatePoll], [POST /polls] and [PUT /polls/{id}] fail with one of
    the validation messages (status 400), and the store is the same
    after the call as before, whoever the caller is. *)
Theorem invalid_poll_input_rejected (env : Env) (db : Db) (pollId q : string)
        (opts : list string) :
  500 < String.length q
  \/ List.length (filter truthy opts) < 2
  \/ 10 < List.length (filter truthy opts)
  \/ Exists (fun o => 200 < String.length o) opts ->
  exists message,
    kind_of_message message = Some InvalidInput
    /\ Actions.createPoll env db (poll_form q opts) = (Some message, db)
    /\ Actions.updatePoll env db pollId (poll_form q opts) = (Some message, db)
    /\ Routes.Polls.POST env db (poll_form q opts) = (json (Some message) 400, db)
    /\ Routes.PollId.PUT env db pollId (poll_form q opts) = (json (Some message) 400, db)
    /\ kind_of_status 400 = Some InvalidInput.
Proof.
  intros Hbad.
  destruct (validate_poll_input_refuses q (filter truthy opts)) as [m [Hv Hk]].
  { destruct Hbad as [H | [H | [H | H]]]; auto using too_long_survives_filter. }
  exists m. split; [assumption|].
  unfold Actions.createPoll, Actions.updatePoll, Routes.Polls.POST, Routes.PollId.PUT.
  rewrite formData_get_poll_form, formData_getAll_poll_form, Hv.
  repeat split.
Qed.

Lemma invalid_poll_input_rejected_witness :
  exists message,
    kind_of_message message = Some InvalidInput
    /\ Actions.createPoll (env_of alice) db0 (poll_form "Best letter?" ["A"; ""]) = (Some message, db0)
    /\ Actions.updatePoll (env_of alice) db0 "p1" (poll_form "Best letter?" ["A"; ""]) = (Some message, db0)
    /\ Routes.Polls.POST (env_of alice) db0 (poll_form "Best letter?" ["A"; ""])
       = (json (Some message) 400, db0)
    /\ Routes.PollId.PUT (env_of alice) db0 "p1" (poll_form "Best letter?" ["A"; ""])
       = (json (Some message) 400, db0)
    /\ kind_of_status 400 = Some InvalidInput.
Proof.
  apply (invalid_poll_input_rejected (env_of alice) db0 "p1" "Best letter?" ["A"; ""]).
  right. left. simpl. lia.
Defined.

Lemma validate_poll_input_too_few (q : string) (options : list string) :
  1 <= String.length (trim q) -> String.length q <= 500 ->
  List.length options < 2 ->
  validate_poll_input (Some q) options = Some "Please provide at least two options.".
Proof.
  intros Hne Hlen Hcount. unfold validate_poll_input.
  rewrite (trim_length_pos_truthy q Hne). simpl.
  destruct (Nat.eqb_spec (String.length (trim q)) 0) as [E|_]; [lia|].
  destruct (Nat.ltb_spec 500 (String.length q)) as [E|_]; [lia|].
  destruct (Nat.ltb_spec (List.length options) 2) as [_|E]; [reflexivity | lia].
Qed.

Lemma validate_poll_input_too_many (q : string) (options : list string) :
  1 <= String.length (trim q) -> String.length q <= 500 ->
  10 < List.length options ->
  validate_poll_input (Some q) options = Some "Maximum 10 options allowed.".
Proof.
  intros Hne Hlen Hcount. unfold validate_poll_input.
  rewrite (trim_length_pos_truthy q Hne). simpl.
  destruct (Nat.eqb_spec (String.length (trim q)) 0) as [E|_]; [lia|].
  destruct (Nat.ltb_spec 500 (String.length q)) as [E|_]; [lia|].
  destruct (Nat.ltb_spec (List.length options) 2) as [E|_]; [lia|].
  destruct (Nat.ltb_spec 10 (List.length options)) as [_|E]; [reflexivity | lia].
Qed.

(** C9. The entries of the submitted options that are empty strings are
    dropped before anything else looks at them. Every handler answers a
    form, and leaves the store, exactly as it does for the same form
    without its empty options. For a question that passes its checks,
    the count bounds are those of the options that are left: fewer than
    2 of them is refused with "Please provide at least two options." and
    more than 10 with "Maximum 10 options allowed." (status 400, store
    unchanged), however many entries were submitted; and when 2 to 10
    are left, each of at most 200 characters and not blank, the form is
    accepted, not refused with "All options must have text.": a
    signed-in caller's [createPoll] stores a poll whose options are the
    trimmed options that were left, in their order, and the owner's
    [updatePoll] stores them in the poll with the given id. *)
Theorem empty_options_dropped (env : Env) (db : Db) (pollId q : string) (opts : list string) :
  let kept := filter truthy opts in
  (Actions.createPoll env db (poll_form q opts)
   = Actions.createPoll env db (poll_form q kept)
   /\ Actions.updatePoll env db pollId (poll_form q opts)
      = Actions.updatePoll env db pollId (poll_form q kept)
   /\ Routes.Polls.POST env db (poll_form q opts)
      = Routes.Polls.POST env db (poll_form q kept)
   /\ Routes.PollId.PUT env db pollId (poll_form q opts)
      = Routes.PollId.PUT env db pollId (poll_form q kept))
  /\ (1 <= String.length (trim q) -> String.length q <= 500 ->
      (List.length kept < 2 ->
       Actions.createPoll env db (poll_form q opts)
       = (Some "Please provide at least two options.", db)
       /\ Actions.updatePoll env db pollId (poll_form q opts)
          = (Some "Please provide at least two options.", db)
       /\ Routes.Polls.POST env db (poll_form q opts)
          = (json (Some "Please provide at least two options.") 400, db)
       /\ Routes.PollId.PUT env db pollId (poll_form q opts)
          = (json (Some "Please provide at least two options.") 400, db))
      /\ (10 < List.length kept ->
          Actions.createPoll env db (poll_form q opts)
          = (Some "Maximum 10 options allowed.", db)
          /\ Actions.updatePoll env db pollId (poll_form q opts)
             = (Some "Maximum 10 options allowed.", db)
          /\ Routes.Polls.POST env db (poll_form q opts)
             = (json (Some "Maximum 10 options allowed.") 400, db)
          /\ Routes.PollId.PUT env db pollId (poll_form q opts)
             = (json (Some "Maximum 10 options allowed.") 400, db))
      /\ (2 <= List.length kept <= 10 ->
          Forall (fun o => 1 <= String.length (trim o) /\ String.length o <= 200) kept ->
          (forall u,
              authenticated_as env u ->
              fault env InsertPoll = None ->
              let created :=
                mkPoll (new_id env) (u_id u) (trim q) (map trim kept) (now env) in
              Actions.createPoll env db (poll_form q opts)
              = (None, mkDb (polls db ++ [created]) (votes db))
              /\ Routes.Polls.POST env db (poll_form q opts)
                 = (json None 201, mkDb (polls db ++ [created]) (votes db)))
          /\ (forall u p,
                 authenticated_as env u ->
                 fault env SelectPoll = None ->
                 fault env UpdatePoll = None ->
                 polls_primary_key db ->
                 In p (polls db) ->
                 p_id p = pollId ->
                 p_user_id p = u_id u ->
                 let updated :=
                   mkPoll (p_id p) (p_user_id p) (trim q) (map trim kept) (p_created_at p) in
                 exists db',
                   Actions.updatePoll env db pollId (poll_form q opts) = (None, db')
                   /\ Routes.PollId.PUT env db pollId (poll_form q opts) = (json None 200, db')
                   /\ In updated (polls db')
                   /\ map p_id (polls db') = map p_id (polls db)
                   /\ votes db' = votes db))).
Proof.
  intros kept. split.
  - unfold Actions.createPoll, Actions.updatePoll, Routes.Polls.POST, Routes.PollId.PUT.
    rewrite !formData_get_poll_form, !formData_getAll_poll_form.
    unfold kept. rewrite filter_truthy_idem. repeat split.
  - intros Hne Hlen. split; [|split].
    + intros Hfew.
      unfold Actions.createPoll, Actions.updatePoll, Routes.Polls.POST, Routes.PollId.PUT.
      rewrite formData_get_poll_form, formData_getAll_poll_form.
      fold kept. rewrite (validate_poll_input_too_few q kept Hne Hlen Hfew). repeat split.
    + intros Hmany.
      unfold Actions.createPoll, Actions.updatePoll, Routes.Polls.POST, Routes.PollId.PUT.
      rewrite formData_get_poll_form, formData_getAll_poll_form.
      fold kept. rewrite (validate_poll_input_too_many q kept Hne Hlen Hmany). repeat split.
    + intros Hcount Hopts.
      pose proof (validate_poll_input_ok q kept Hne Hlen Hcount Hopts) as Hv.
      split.
      * intros u Hauth Hf created.
        destruct (authenticated_fields env u Hauth) as [Hu He].
        unfold Actions.createPoll, Routes.Polls.POST, Store.insert_poll.
        rewrite formData_get_poll_form, formData_getAll_poll_form.
        fold kept. rewrite Hv, Hu, He, Hf. split; reflexivity.
      * intros u p Hauth Hfs Hfu Hpk Hin Hid Hown updated.
        destruct (authenticated_fields env u Hauth) as [Hu He].
        set (patch := fun x : Poll =>
                        if Store.poll_has_id pollId x && Store.poll_owned_by (u_id u) x
                        then mkPoll (p_id x) (p_user_id x) (trim q) (map trim kept)
                                    (p_created_at x)
                        else x).
        exists (mkDb (map patch (polls db)) (votes db)).
        assert (Howner : negb (String.eqb (p_user_id p) (u_id u)) = false).
        { rewrite Hown, String.eqb_refl. reflexivity. }
        assert (Hsel : Store.select_poll env db pollId = Data p).
        { rewrite <- Hid. now apply select_poll_present. }
        repeat match goal with |- _ /\ _ => split end.
        -- unfold Actions.updatePoll, Store.update_poll.
           rewrite formData_get_poll_form, formData_getAll_poll_form.
           fold kept. rewrite Hv, Hu, He, Hsel, Howner, Hfu. reflexivity.
        -- unfold Routes.PollId.PUT, Store.update_poll.
           rewrite formData_get_poll_form, formData_getAll_poll_form.
           fold kept. rewrite Hv, Hu, He, Hsel, Howner, Hfu. reflexivity.
        -- simpl. apply in_map_iff. exists p. split; [|assumption].
           unfold patch, updated, Store.poll_has_id, Store.poll_owned_by.
           rewrite Hid, String.eqb_refl, Hown, String.eqb_refl. reflexivity.
        -- simpl. rewrite map_map. apply map_ext. intros x. unfold patch.
           now destruct (Store.poll_has_id pollId x && Store.poll_owned_by (u_id u) x).
        -- reflexivity.
Qed.

Lemma empty_options_dropped_witness :
  Actions.createPoll (env_of alice) db0 (poll_form "Best letter?" ["A"; ""; "B"])
  = (None,
     mkDb (polls db0 ++ [mkPoll "p9" "alice" "Best letter?" ["A"; "B"] 900]) (votes db0))
  /\ Routes.PollId.PUT (env_of alice) db0 "p1" (poll_form "Best letter?" ["A"; ""])
     = (json (Some "Please provide at least two options.") 400, db0).
Proof.
  split.
  - destruct (empty_options_dropped (env_of alice) db0 "p1" "Best letter?" ["A"; ""; "B"])
      as [_ H].
    destruct H as [_ [_ H]].
    + vm_compute. lia.
    + vm_compute. lia.
    + destruct H as [H _].
      * simpl. lia.
      * repeat constructor; vm_compute; lia.
      * apply (H alice); reflexivity.
  - destruct (empty_options_dropped (env_of alice) db0 "p1" "Best letter?" ["A"; ""])
      as [_ H].
    destruct H as [H _].
    + vm_compute. lia.
    + vm_compute. lia.
    + apply H. simpl. lia.
Defined.

(** A signed-in caller who does not own the poll cannot update it: once
    the form has passed validation, [updatePoll] answers "You can only
    edit your own polls." (status 403) and leaves the store as it was. *)
Lemma updatePoll_non_owner_forbidden (env : Env) (db : Db) (u : User) (p : Poll)
      (q : string) (opts : list string) :
  authenticated_as env u ->
  fault env SelectPoll = None ->
  polls_primary_key db ->
  In p (polls db) ->
  p_user_id p <> u_id u ->
  validate_poll_input (Some q) (filter truthy opts) = None ->
  Actions.updatePoll env db (p_id p) (poll_form q opts)
  = (Some "You can only edit your own polls.", db)
  /\ Routes.PollId.PUT env db (p_id p) (poll_form q opts)
     = (json (Some "You can only edit your own polls.") 403, db).
Proof.
  intros Hauth Hf Hpk Hin Hown Hv.
  destruct (authenticated_fields env u Hauth) as [Hu He].
  unfold Actions.updatePoll, Routes.PollId.PUT.
  rewrite formData_get_poll_form, formData_getAll_poll_form, Hv, Hu, He.
  rewrite (select_poll_present env db p Hf Hpk Hin).
  apply String.eqb_neq in Hown. rewrite Hown. split; reflexivity.
Qed.

(** ** Casting a vote *)

(** C5 as stated fails: for a poll id that is not in the store, a
    negative option index is answered with "Invalid vote data."
    (status 400), not with "Poll not found.". *)
Lemma submitVote_missing_poll_negative_index :
  (forall p, In p (polls db0) -> p_id p <> "p7")
  /\ Actions.submitVote (env_of alice) db0 "p7" (JNumber (-1))
     = (Some "Invalid vote data.", db0)
  /\ Routes.Vote.POST (env_of alice) db0 "p7" (JNumber (-1))
     = (json (Some "Invalid vote data.") 400, db0)
  /\ kind_of_message "Invalid vote data." <> Some NotFound
  /\ kind_of_status 400 <> Some NotFound.
Proof.
  split.
  { intros p Hp. simpl in Hp. destruct Hp as [<- | [<- | [<- | []]]]; discriminate. }
  repeat split; vm_compute; (reflexivity || discriminate).
Qed.

(** C5, amended. For a poll [p] of the store (ids being a primary key
    and the lookup answered) and an integer option index that is
    negative or at least the number of [p]'s options, [submitVote] and
    [POST /polls/{id}/vote] fail with an invalid-input message (status
    400) and the store, its votes included, is unchanged. For a
    non-empty poll id that no poll of the store has and a non-negative
    integer option index, they fail with "Poll not found." (status 404)
    and the store is unchanged. *)
Theorem submitVote_bad_index_or_missing_poll (env : Env) (db : Db) :
  (forall p i,
      fault env SelectPoll = None -> polls_primary_key db -> In p (polls db) ->
      (i < 0 \/ Z.of_nat (List.length (p_options p)) <= i)%Z ->
      exists message,
        kind_of_message message = Some InvalidInput
        /\ Actions.submitVote env db (p_id p) (JNumber i) = (Some message, db)
        /\ Routes.Vote.POST env db (p_id p) (JNumber i) = (json (Some message) 400, db)
        /\ kind_of_status 400 = Some InvalidInput)
  /\ (forall id i,
         id <> "" -> (0 <= i)%Z ->
         (forall p, In p (polls db) -> p_id p <> id) ->
         Actions.submitVote env db id (JNumber i) = (Some "Poll not found.", db)
         /\ Routes.Vote.POST env db id (JNumber i) = (json (Some "Poll not found.") 404, db)
         /\ kind_of_status 404 = Some NotFound).
Proof.
  split.
  - intros p i Hf Hpk Hin Hi.
    unfold Actions.submitVote, Routes.Vote.POST.
    destruct (negb (truthy (p_id p)) || not_number_or_negative (JNumber i)) eqn:Ebad.
    + exists "Invalid vote data.". repeat split.
    + rewrite (select_poll_present env db p Hf Hpk Hin).
      apply orb_false_iff in Ebad. destruct Ebad as [_ Eneg]. simpl in Eneg.
      apply Z.ltb_ge in Eneg.
      assert (Hge : (Z.of_nat (List.length (p_options p)) <=? number_of (JNumber i))%Z = true).
      { apply Z.leb_le. simpl. lia. }
      rewrite Hge. exists "Invalid option selected.". repeat split.
  - intros id i Hid Hi Habs.
    unfold Actions.submitVote, Routes.Vote.POST.
    assert (Hok : negb (truthy id) || not_number_or_negative (JNumber i) = false).
    { destruct id; [congruence|]. simpl. apply Z.ltb_ge. assumption. }
    rewrite Hok. destruct (select_poll_absent env db id Habs) as [m Hm].
    rewrite Hm. repeat split.
Qed.

Lemma submitVote_bad_index_or_missing_poll_witness :
  (exists message,
      kind_of_message message = Some InvalidInput
      /\ Actions.submitVote (env_of alice) db0 "p1" (JNumber 2) = (Some message, db0)
      /\ Routes.Vote.POST (env_of alice) db0 "p1" (JNumber 2) = (json (Some message) 400, db0)
      /\ kind_of_status 400 = Some InvalidInput)
  /\ Actions.submitVote (env_of alice) db0 "p7" (JNumber 0) = (Some "Poll not found.", db0).
Proof.
  destruct (submitVote_bad_index_or_missing_poll (env_of alice) db0) as [Hbad Hmiss].
  split.
  - apply (Hbad poll1 2%Z).
    + reflexivity.
    + exact db0_primary_key.
    + simpl. tauto.
    + right. simpl. lia.
  - apply (Hmiss "p7" 0%Z).
    + discriminate.
    + lia.
    + intros p Hp. simpl in Hp. destruct Hp as [<- | [<- | [<- | []]]]; discriminate.
Defined.

(** C6 as stated fails: a signed-in caller who has already voted on a
    poll and submits an option index outside the poll's options is
    answered with "Invalid option selected." (status 400), not with the
    already-voted conflict. *)
Lemma submitVote_voted_user_bad_index :
  In vote1 (votes db0)
  /\ v_poll_id vote1 = p_id poll1
  /\ v_user_id vote1 = Some (u_id bob)
  /\ Actions.submitVote (env_of bob) db0 (p_id poll1) (JNumber 7)
     = (Some "Invalid option selected.", db0)
  /\ Routes.Vote.POST (env_of bob) db0 (p_id poll1) (JNumber 7)
     = (json (Some "Invalid option selected.") 400, db0)
  /\ kind_of_message "Invalid option selected." <> Some Conflict
  /\ kind_of_status 400 <> Some Conflict.
Proof.
  split; [simpl; tauto|].
  repeat split; vm_compute; (reflexivity || discriminate).
Qed.

(** C6, amended. Let [p] be a poll of the store with a non-empty id
    (ids being a primary key and the lookup answered) and [i] an index
    of one of its options. If the session has a user who already has a
    vote on [p] (the votes table holding at most one vote per poll and
    voter, and the lookup answered), [submitVote] and
    [POST /polls/{id}/vote] fail with "You have already voted on this
    poll." (status 409) and the store is unchanged. If the session has
    no user, they succeed when the store accepts the insert, whatever
    votes the store already holds, and exactly one vote is added: on
    [p], for option [i], without a voter. *)
Theorem submitVote_duplicates_only_for_users (env : Env) (db : Db) (p : Poll) (i : Z) :
  fault env SelectPoll = None -> polls_primary_key db -> In p (polls db) ->
  p_id p <> "" ->
  (0 <= i < Z.of_nat (List.length (p_options p)))%Z ->
  (forall u v,
      auth_user (getUser env) = Some u ->
      fault env SelectVote = None -> votes_unique db ->
      In v (votes db) -> v_poll_id v = p_id p -> v_user_id v = Some (u_id u) ->
      Actions.submitVote env db (p_id p) (JNumber i)
      = (Some "You have already voted on this poll.", db)
      /\ Routes.Vote.POST env db (p_id p) (JNumber i)
         = (json (Some "You have already voted on this poll.") 409, db)
      /\ kind_of_status 409 = Some Conflict)
  /\ (anonymous env ->
      fault env InsertVote = None ->
      let cast := mkVote (new_id env) (p_id p) None i (now env) in
      Actions.submitVote env db (p_id p) (JNumber i)
      = (None, mkDb (polls db) (votes db ++ [cast]))
      /\ Routes.Vote.POST env db (p_id p) (JNumber i)
         = (json None 200, mkDb (polls db) (votes db ++ [cast]))).
Proof.
  intros Hf Hpk Hin Hid Hi.
  assert (Hok : negb (truthy (p_id p)) || not_number_or_negative (JNumber i) = false).
  { destruct (p_id p); [congruence|]. simpl. apply Z.ltb_ge. lia. }
  assert (Hidx : (Z.of_nat (List.length (p_options p)) <=? number_of (JNumber i))%Z = false).
  { apply Z.leb_gt. simpl. lia. }
  split.
  - intros u v Hu Hfv Huniq Hv Hvp Hvu.
    unfold Actions.submitVote, Routes.Vote.POST.
    rewrite Hok, (select_poll_present env db p Hf Hpk Hin), Hidx, Hu, <- Hvp.
    rewrite (select_vote_present env db v (u_id u) Hfv Huniq Hv Hvu).
    repeat split.
  - intros Hanon Hfi cast. unfold anonymous in Hanon.
    unfold Actions.submitVote, Routes.Vote.POST, Store.insert_vote.
    rewrite Hok, (select_poll_present env db p Hf Hpk Hin), Hidx, Hanon, Hfi.
    split; reflexivity.
Qed.

Lemma submitVote_duplicates_only_for_users_witness :
  Actions.submitVote (env_of bob) db0 "p1" (JNumber 1)
  = (Some "You have already voted on this poll.", db0)
  /\ Actions.submitVote env_anonymous db0 "p1" (JNumber 1)
     = (None, mkDb (polls db0) (votes db0 ++ [mkVote "v9" "p1" None 1 900])).
Proof.
  split.
  - destruct (submitVote_duplicates_only_for_users (env_of bob) db0 poll1 1%Z)
      as [Hdup _].
    + reflexivity.
    + exact db0_primary_key.
    + simpl. tauto.
    + discriminate.
    + simpl. lia.
    + apply (Hdup bob vote1).
      * reflexivity.
      * reflexivity.
      * exact db0_votes_unique.
      * simpl. tauto.
      * reflexivity.
      * reflexivity.
  - destruct (submitVote_duplicates_only_for_users env_anonymous db0 poll1 1%Z)
      as [_ Hanon].
    + reflexivity.
    + exact db0_primary_key.
    + simpl. tauto.
    + discriminate.
    + simpl. lia.
    + apply Hanon; reflexivity.
Defined.

(** ** Error messages of the other handlers *)

(** Apart from [getUserPolls], every server action answers a failure,
    of the store or of any other kind, with one of the fixed messages. *)
Lemma handlers_errors_fixed (env : Env) (db : Db) (id : string) (formData : FormData)
      (optionIndex : json_value) :
  fixed_error (fst (Actions.createPoll env db formData))
  /\ fixed_error (fst (Actions.updatePoll env db id formData))
  /\ fixed_error (fst (Actions.deletePoll env db id))
  /\ fixed_error (fst (Actions.adminDeletePoll env db id))
  /\ fixed_error (fst (Actions.submitVote env db id optionIndex))
  /\ fixed_error (res_polls_error (Actions.getAllPolls env db))
  /\ fixed_error (res_poll_error (Actions.getPollById env db id)).
Proof.
  assert (Hval : forall q o m, validate_poll_input q o = Some m -> fixed_error (Some m)).
  { intros q o m Hm. right. exists InvalidInput. now apply validate_poll_input_invalid in Hm. }
  repeat split.
  - unfold Actions.createPoll, Store.insert_poll.
    destruct (validate_poll_input _ _) as [m|] eqn:Ev; [now apply Hval in Ev|].
    case_handler; fixed_message.
  - unfold Actions.updatePoll, Store.update_poll.
    destruct (validate_poll_input _ _) as [m|] eqn:Ev; [now apply Hval in Ev|].
    case_handler; fixed_message.
  - unfold Actions.deletePoll, Store.delete_polls. case_handler; fixed_message.
  - unfold Actions.adminDeletePoll, Store.delete_polls. case_handler; fixed_message.
  - unfold Actions.submitVote, Store.insert_vote. case_handler; fixed_message.
  - unfold Actions.getAllPolls. case_handler; fixed_message.
  - unfold Actions.getPollById. case_handler; fixed_message.
Qed.

(** ** One vote per poll and voter *)

Lemma voter_keys_app (l1 l2 : list Vote) :
  voter_keys (l1 ++ l2) = (voter_keys l1 ++ voter_keys l2)%list.
Proof. unfold voter_keys. apply flat_map_app. Qed.

Lemma voter_key_has_vote (l : list Vote) (pollId uid : string) :
  In (pollId, uid) (voter_keys l) ->
  exists v, In v l /\ v_poll_id v = pollId /\ v_user_id v = Some uid.
Proof.
  unfold voter_keys. rewrite in_flat_map. intros [v [Hv Hk]]. exists v.
  destruct (v_user_id v) as [u'|]; simpl in Hk; [|contradiction].
  destruct Hk as [[= <- <-] | []]. auto.
Qed.

(** With the duplicate check answered by the store, [submitVote] keeps
    the votes table free of second votes by the same voter on the same
    poll. *)
Lemma submitVote_keeps_votes_unique (env : Env) (db : Db) (pollId : string)
      (optionIndex : json_value) :
  fault env SelectVote = None ->
  votes_unique db ->
  votes_unique (snd (Actions.submitVote env db pollId optionIndex)).
Proof.
  intros Hf Huniq. unfold Actions.submitVote.
  destruct (negb (truthy pollId) || not_number_or_negative optionIndex); [assumption|].
  destruct (Store.select_poll env db pollId) as [poll|]; [|assumption].
  destruct (Z.of_nat (List.length (p_options poll)) <=? number_of optionIndex)%Z;
    [assumption|].
  destruct (auth_user (getUser env)) as [u|].
  - destruct (Store.select_vote env db pollId (u_id u)) as [vote|m] eqn:Esel;
      [assumption|].
    unfold Store.insert_vote. destruct (fault env InsertVote); [assumption|].
    unfold votes_unique. simpl. rewrite voter_keys_app. simpl.
    apply NoDup_app; [assumption | repeat constructor; simpl; tauto |].
    intros k Hk [<- | []].
    apply voter_key_has_vote in Hk. destruct Hk as [v [Hv [Hp Hu]]].
    rewrite <- Hp in Esel.
    rewrite (select_vote_present env db v (u_id u) Hf Huniq Hv Hu) in Esel.
    discriminate.
  - unfold Store.insert_vote. destruct (fault env InsertVote); [assumption|].
    unfold votes_unique. simpl. rewrite voter_keys_app. simpl.
    now rewrite app_nil_r.
Qed.

(** * Further properties of the handlers *)

(** ** Failure leaves the store alone *)

Ltac success_or_unchanged :=
  simpl; solve [ left; reflexivity | right; reflexivity ].

(** Case analysis that settles what the store answers first. *)
Ltac case_store :=
  repeat match goal with
         | |- context [fault ?e ?c] => destruct (fault e c) eqn:?
         end;
  case_handler.

(** A server action or route handler that changes the store reports
    success: each of them either returns a null error or returns the
    store exactly as it received it. *)
Theorem handlers_fail_without_effect (env : Env) (db : Db) (id : string)
        (formData : FormData) (optionIndex : json_value) :
  (fst (Actions.createPoll env db formData) = None
   \/ snd (Actions.createPoll env db formData) = db)
  /\ (fst (Actions.updatePoll env db id formData) = None
      \/ snd (Actions.updatePoll env db id formData) = db)
  /\ (fst (Actions.deletePoll env db id) = None
      \/ snd (Actions.deletePoll env db id) = db)
  /\ (fst (Actions.adminDeletePoll env db id) = None
      \/ snd (Actions.adminDeletePoll env db id) = db)
  /\ (fst (Actions.submitVote env db id optionIndex) = None
      \/ snd (Actions.submitVote env db id optionIndex) = db)
  /\ (body (fst (Routes.Polls.POST env db formData)) = None
      \/ snd (Routes.Polls.POST env db formData) = db)
  /\ (body (fst (Routes.PollId.PUT env db id formData)) = None
      \/ snd (Routes.PollId.PUT env db id formData) = db)
  /\ (body (fst (Routes.PollId.DELETE env db id)) = None
      \/ snd (Routes.PollId.DELETE env db id) = db)
  /\ (body (fst (Routes.AdminPollId.DELETE env db id)) = None
      \/ snd (Routes.AdminPollId.DELETE env db id) = db)
  /\ (body (fst (Routes.Vote.POST env db id optionIndex)) = None
      \/ snd (Routes.Vote.POST env db id optionIndex) = db).
Proof.
  repeat split.
  - unfold Actions.createPoll, Store.insert_poll. case_store; success_or_unchanged.
  - unfold Actions.updatePoll, Store.update_poll. case_store; success_or_unchanged.
  - unfold Actions.deletePoll, Store.delete_polls. case_store; success_or_unchanged.
  - unfold Actions.adminDeletePoll, Store.delete_polls. case_store; success_or_unchanged.
  - unfold Actions.submitVote, Store.insert_vote. case_store; success_or_unchanged.
  - unfold Routes.Polls.POST, Store.insert_poll. case_store; success_or_unchanged.
  - unfold Routes.PollId.PUT, Store.update_poll. case_store; success_or_unchanged.
  - unfold Routes.PollId.DELETE, Store.delete_polls. case_store; success_or_unchanged.
  - unfold Routes.AdminPollId.DELETE, Store.delete_polls. case_store; success_or_unchanged.
  - unfold Routes.Vote.POST, Store.insert_vote. case_store; success_or_unchanged.
Qed.

(** ** The two copies of each handler *)

(** Every route handler returns the body its server action returns and
    leaves the same store: for every session in the handlers that vote,
    read or act for the admin, and for a session that reports no error
    in the handlers that create, update and delete as owner (with an
    error the action says "Authentication failed." where the route
    says "You must be logged in ..."). *)
Theorem routes_agree_with_actions (env : Env) (db : Db) (id : string)
        (formData : FormData) (optionIndex : json_value) :
  (auth_error (getUser env) = None ->
   (body (fst (Routes.Polls.POST env db formData)) = fst (Actions.createPoll env db formData)
    /\ snd (Routes.Polls.POST env db formData) = snd (Actions.createPoll env db formData))
   /\ (body (fst (Routes.PollId.PUT env db id formData))
       = fst (Actions.updatePoll env db id formData)
       /\ snd (Routes.PollId.PUT env db id formData)
          = snd (Actions.updatePoll env db id formData))
   /\ (body (fst (Routes.PollId.DELETE env db id)) = fst (Actions.deletePoll env db id)
       /\ snd (Routes.PollId.DELETE env db id) = snd (Actions.deletePoll env db id)))
  /\ (body (fst (Routes.AdminPollId.DELETE env db id)) = fst (Actions.adminDeletePoll env db id)
      /\ snd (Routes.AdminPollId.DELETE env db id) = snd (Actions.adminDeletePoll env db id))
  /\ (body (fst (Routes.Vote.POST env db id optionIndex))
      = fst (Actions.submitVote env db id optionIndex)
      /\ snd (Routes.Vote.POST env db id optionIndex)
         = snd (Actions.submitVote env db id optionIndex))
  /\ body (Routes.Polls.GET env db) = Actions.getUserPolls env db
  /\ body (Routes.PollId.GET env db id) = Actions.getPollById env db id
  /\ body (Routes.AdminPolls.GET env db) = Actions.getAllPolls env db.
Proof.
  split; [intros He|]; repeat split.
  - unfold Routes.Polls.POST, Actions.createPoll, Store.insert_poll. rewrite He.
    case_store; reflexivity.
  - unfold Routes.Polls.POST, Actions.createPoll, Store.insert_poll. rewrite He.
    case_store; reflexivity.
  - unfold Routes.PollId.PUT, Actions.updatePoll, Store.update_poll. rewrite He.
    case_store; reflexivity.
  - unfold Routes.PollId.PUT, Actions.updatePoll, Store.update_poll. rewrite He.
    case_store; reflexivity.
  - unfold Routes.PollId.DELETE, Actions.deletePoll, Store.delete_polls. rewrite He.
    case_store; reflexivity.
  - unfold Routes.PollId.DELETE, Actions.deletePoll, Store.delete_polls. rewrite He.
    case_store; reflexivity.
  - unfold Routes.AdminPollId.DELETE, Actions.adminDeletePoll, Store.delete_polls.
    case_store; reflexivity.
  - unfold Routes.AdminPollId.DELETE, Actions.adminDeletePoll, Store.delete_polls.
    case_store; reflexivity.
  - unfold Routes.Vote.POST, Actions.submitVote, Store.insert_vote.
    case_store; reflexivity.
  - unfold Routes.Vote.POST, Actions.submitVote, Store.insert_vote.
    case_store; reflexivity.
  - unfold Routes.Polls.GET, Actions.getUserPolls. case_store; reflexivity.
  - unfold Routes.PollId.GET, Actions.getPollById. case_store; reflexivity.
  - unfold Routes.AdminPolls.GET, Actions.getAllPolls. case_store; reflexivity.
Qed.

Lemma routes_agree_with_actions_witness :
  body (fst (Routes.Polls.POST (env_of alice) db0 (poll_form "Lunch?" ["Soup"; "Salad"])))
  = fst (Actions.createPoll (env_of alice) db0 (poll_form "Lunch?" ["Soup"; "Salad"]))
  /\ snd (Routes.Polls.POST (env_of alice) db0 (poll_form "Lunch?" ["Soup"; "Salad"]))
     = snd (Actions.createPoll (env_of alice) db0 (poll_form "Lunch?" ["Soup"; "Salad"])).
Proof.
  destruct (routes_agree_with_actions (env_of alice) db0 "p1"
              (poll_form "Lunch?" ["Soup"; "Salad"]) (JNumber 0)) as [H _].
  apply H. reflexivity.
Defined.

(** A route answers 200 or 201 exactly when the [error] of its body is
    null. *)
Theorem routes_status_tells_success (env : Env) (db : Db) (id : string)
        (formData : FormData) (optionIndex : json_value) :
  (body (fst (Routes.Polls.POST env db formData)) = None
   <-> status (fst (Routes.Polls.POST env db formData)) = 201)
  /\ (body (fst (Routes.PollId.PUT env db id formData)) = None
      <-> status (fst (Routes.PollId.PUT env db id formData)) = 200)
  /\ (body (fst (Routes.PollId.DELETE env db id)) = None
      <-> status (fst (Routes.PollId.DELETE env db id)) = 200)
  /\ (body (fst (Routes.AdminPollId.DELETE env db id)) = None
      <-> status (fst (Routes.AdminPollId.DELETE env db id)) = 200)
  /\ (body (fst (Routes.Vote.POST env db id optionIndex)) = None
      <-> status (fst (Routes.Vote.POST env db id optionIndex)) = 200)
  /\ (res_polls_error (body (Routes.Polls.GET env db)) = None
      <-> status (Routes.Polls.GET env db) = 200)
  /\ (res_poll_error (body (Routes.PollId.GET env db id)) = None
      <-> status (Routes.PollId.GET env db id) = 200)
  /\ (res_polls_error (body (Routes.AdminPolls.GET env db)) = None
      <-> status (Routes.AdminPolls.GET env db) = 200).
Proof.
  repeat match goal with |- _ /\ _ => split end.
  - unfold Routes.Polls.POST, Store.insert_poll.
    case_store; simpl; split; (reflexivity || discriminate).
  - unfold Routes.PollId.PUT, Store.update_poll.
    case_store; simpl; split; (reflexivity || discriminate).
  - unfold Routes.PollId.DELETE, Store.delete_polls.
    case_store; simpl; split; (reflexivity || discriminate).
  - unfold Routes.AdminPollId.DELETE, Store.delete_polls.
    case_store; simpl; split; (reflexivity || discriminate).
  - unfold Routes.Vote.POST, Store.insert_vote.
    case_store; simpl; split; (reflexivity || discriminate).
  - unfold Routes.Polls.GET. case_store; simpl; split; (reflexivity || discriminate).
  - unfold Routes.PollId.GET. case_store; simpl; split; (reflexivity || discriminate).
  - unfold Routes.AdminPolls.GET. case_store; simpl; split; (reflexivity || discriminate).
Qed.

(** ** Callers without a session *)

(** Without a session user nothing but a vote can change the store:
    creating, updating and deleting (as owner or as admin) leave the
    store as it was and answer with an authentication error, or, for a
    form that fails validation, with the validation error; the routes
    answer 401 or 400. *)
Theorem no_session_no_change (env : Env) (db : Db) (id : string) (formData : FormData) :
  auth_user (getUser env) = None ->
  (snd (Actions.createPoll env db formData) = db
   /\ (kind_of_error (fst (Actions.createPoll env db formData)) = Some Unauthenticated
       \/ kind_of_error (fst (Actions.createPoll env db formData)) = Some InvalidInput))
  /\ (snd (Actions.updatePoll env db id formData) = db
      /\ (kind_of_error (fst (Actions.updatePoll env db id formData)) = Some Unauthenticated
          \/ kind_of_error (fst (Actions.updatePoll env db id formData)) = Some InvalidInput))
  /\ (snd (Actions.deletePoll env db id) = db
      /\ kind_of_error (fst (Actions.deletePoll env db id)) = Some Unauthenticated)
  /\ (snd (Actions.adminDeletePoll env db id) = db
      /\ kind_of_error (fst (Actions.adminDeletePoll env db id)) = Some Unauthenticated)
  /\ (snd (Routes.Polls.POST env db formData) = db
      /\ (status (fst (Routes.Polls.POST env db formData)) = 401
          \/ status (fst (Routes.Polls.POST env db formData)) = 400))
  /\ (snd (Routes.PollId.PUT env db id formData) = db
      /\ (status (fst (Routes.PollId.PUT env db id formData)) = 401
          \/ status (fst (Routes.PollId.PUT env db id formData)) = 400))
  /\ Routes.PollId.DELETE env db id
     = (json (Some "You must be logged in to delete a poll.") 401, db)
  /\ Routes.AdminPollId.DELETE env db id = (json (Some "Authentication required.") 401, db).
Proof.
  intros Hu.
  assert (Hval : forall q o m, validate_poll_input q o = Some m ->
                               kind_of_error (Some m) = Some InvalidInput).
  { intros q o m Hm. simpl. now apply validate_poll_input_invalid in Hm. }
  repeat match goal with |- _ /\ _ => split end.
  - unfold Actions.createPoll. rewrite Hu. case_handler; reflexivity.
  - unfold Actions.createPoll. rewrite Hu.
    destruct (validate_poll_input _ _) as [m|] eqn:Ev; [right; now apply Hval in Ev|].
    left. case_handler; reflexivity.
  - unfold Actions.updatePoll. rewrite Hu. case_handler; reflexivity.
  - unfold Actions.updatePoll. rewrite Hu.
    destruct (validate_poll_input _ _) as [m|] eqn:Ev; [right; now apply Hval in Ev|].
    left. case_handler; reflexivity.
  - unfold Actions.deletePoll. rewrite Hu. case_handler; reflexivity.
  - unfold Actions.deletePoll. rewrite Hu. case_handler; reflexivity.
  - unfold Actions.adminDeletePoll. rewrite Hu. case_handler; reflexivity.
  - unfold Actions.adminDeletePoll. rewrite Hu. case_handler; reflexivity.
  - unfold Routes.Polls.POST. rewrite Hu. case_handler; reflexivity.
  - unfold Routes.Polls.POST. rewrite Hu.
    case_handler; simpl; solve [left; reflexivity | right; reflexivity].
  - unfold Routes.PollId.PUT. rewrite Hu. case_handler; reflexivity.
  - unfold Routes.PollId.PUT. rewrite Hu.
    case_handler; simpl; solve [left; reflexivity | right; reflexivity].
  - unfold Routes.PollId.DELETE. rewrite Hu. case_handler; reflexivity.
  - unfold Routes.AdminPollId.DELETE. rewrite Hu. case_handler; reflexivity.
Qed.

Lemma no_session_no_change_witness :
  snd (Actions.deletePoll env_anonymous db0 "p1") = db0
  /\ kind_of_error (fst (Actions.deletePoll env_anonymous db0 "p1")) = Some Unauthenticated.
Proof.
  apply (no_session_no_change env_anonymous db0 "p1" (poll_form "Lunch?" ["Soup"; "Salad"])).
  reflexivity.
Defined.

(** ** Deleting polls *)

Lemma primary_key_inj (l : list Poll) (p q : Poll) :
  NoDup (map p_id l) -> In p l -> In q l -> p_id q = p_id p -> q = p.
Proof.
  intros Hpk Hp Hq Hid.
  assert (H : [q] = [p]).
  { rewrite <- (filter_poll_by_id l q Hpk Hq). rewrite Hid.
    now apply filter_poll_by_id. }
  now injection H.
Qed.

(** A delete whose filter selects the polls with a given id, one of
    which exists, removes them and the votes on them. *)
Lemma delete_polls_by_id (env : Env) (db : Db) (matches : Poll -> bool) (p : Poll) :
  fault env DeletePoll = None ->
  In p (polls db) ->
  (forall q, In q (polls db) -> matches q = Store.poll_has_id (p_id p) q) ->
  Store.delete_polls env db matches
  = (Data tt, mkDb (polls_except (p_id p) (polls db)) (votes_except (p_id p) (votes db))).
Proof.
  intros Hf Hin Hm. unfold Store.delete_polls. rewrite Hf. f_equal. f_equal.
  - unfold polls_except. apply filter_ext_in. intros q Hq. now rewrite (Hm q Hq).
  - unfold votes_except. apply filter_ext. intros v. f_equal.
    destruct (String.eqb_spec (v_poll_id v) (p_id p)) as [E|E].
    + apply existsb_exists. exists p. split; [assumption|].
      rewrite (Hm p Hin). unfold Store.poll_has_id.
      rewrite String.eqb_refl. simpl. apply String.eqb_eq. now symmetry.
    + apply not_true_is_false. intros He. apply existsb_exists in He.
      destruct He as [q [Hq He]]. rewrite (Hm q Hq) in He.
      apply andb_true_iff in He. destruct He as [He1 He2].
      apply String.eqb_eq in He1. apply String.eqb_eq in He2. congruence.
Qed.

Lemma getPollById_after_removal (env : Env) (db : Db) (id : string) :
  Actions.getPollById env
    (mkDb (polls_except id (polls db)) (votes_except id (votes db))) id
  = mkPollResult None (Some "Poll not found.") None.
Proof.
  destruct (select_poll_absent env
              (mkDb (polls_except id (polls db)) (votes_except id (votes db))) id)
    as [m Hm].
  - simpl. intros q Hq. unfold polls_except in Hq. apply filter_In in Hq.
    destruct Hq as [_ Hq]. apply negb_true_iff in Hq. now apply String.eqb_neq.
  - unfold Actions.getPollById. now rewrite Hm.
Qed.

(** The owner of a poll who calls [deletePoll] or [DELETE /polls/{id}]
    with its id (ids being a primary key, the store answering) gets a
    null error, and the store loses that poll and every vote on it and
    nothing else; afterwards [getPollById] answers "Poll not found."
    to every caller. *)
Theorem deletePoll_owner_removes_poll (env : Env) (db : Db) (u : User) (p : Poll) :
  authenticated_as env u ->
  fault env DeletePoll = None ->
  polls_primary_key db ->
  In p (polls db) ->
  p_user_id p = u_id u ->
  let db' := mkDb (polls_except (p_id p) (polls db)) (votes_except (p_id p) (votes db)) in
  Actions.deletePoll env db (p_id p) = (None, db')
  /\ Routes.PollId.DELETE env db (p_id p) = (json None 200, db')
  /\ (forall q, In q (polls db') <-> In q (polls db) /\ q <> p)
  /\ (forall v, In v (votes db') <-> In v (votes db) /\ v_poll_id v <> p_id p)
  /\ (forall env', Actions.getPollById env' db' (p_id p)
                   = mkPollResult None (Some "Poll not found.") None).
Proof.
  intros Hauth Hf Hpk Hin Hown db'.
  destruct (authenticated_fields env u Hauth) as [Hu He].
  assert (Hdel : Store.delete_polls env db
                   (fun q => Store.poll_has_id (p_id p) q && Store.poll_owned_by (u_id u) q)
                 = (Data tt, db')).
  { apply delete_polls_by_id; try assumption.
    intros q Hq. unfold Store.poll_has_id, Store.poll_owned_by.
    destruct (String.eqb_spec (p_id q) (p_id p)) as [E|E]; [|reflexivity].
    rewrite (primary_key_inj (polls db) p q Hpk Hin Hq E). simpl.
    apply String.eqb_eq. assumption. }
  repeat match goal with |- _ /\ _ => split end.
  - unfold Actions.deletePoll. now rewrite Hu, He, Hdel.
  - unfold Routes.PollId.DELETE. now rewrite Hu, He, Hdel.
  - intros q. unfold db', polls_except. simpl. rewrite filter_In, negb_true_iff.
    split.
    + intros [Hq Hne]. split; [assumption|]. intros ->.
      now rewrite String.eqb_refl in Hne.
    + intros [Hq Hne]. split; [assumption|]. apply String.eqb_neq. intros E.
      apply Hne. now apply (primary_key_inj (polls db) p q).
  - intros v. unfold db', votes_except. simpl.
    now rewrite filter_In, negb_true_iff, String.eqb_neq.
  - intros env'. apply getPollById_after_removal.
Qed.

Lemma deletePoll_owner_removes_poll_witness :
  Actions.deletePoll (env_of alice) db0 "p1" = (None, mkDb [poll2; poll3] []).
Proof.
  apply (deletePoll_owner_removes_poll (env_of alice) db0 alice poll1).
  - reflexivity.
  - reflexivity.
  - exact db0_primary_key.
  - simpl. tauto.
  - reflexivity.
Defined.

(** An admin who calls [adminDeletePoll] or [DELETE /admin/polls/{id}]
    gets a null error, status 200, when the store answers. The call
    adds nothing to the store, and it removes no poll with another id
    and no vote on a poll with another id. A poll with the given id
    that the admin owns is removed, and with ids a primary key
    [getPollById] then answers "Poll not found." to every caller. *)
Theorem adminDeletePoll_admin_keeps_other_polls (env : Env) (db : Db) (u : User)
        (id : string) :
  authenticated_as env u ->
  (exists e, u_email u = Some e /\ In e adminEmails) ->
  fault env DeletePoll = None ->
  exists db',
    Actions.adminDeletePoll env db id = (None, db')
    /\ Routes.AdminPollId.DELETE env db id = (json None 200, db')
    /\ (forall q, In q (polls db') -> In q (polls db))
    /\ (forall v, In v (votes db') -> In v (votes db))
    /\ (forall q, In q (polls db) -> p_id q <> id -> In q (polls db'))
    /\ (forall v, In v (votes db) -> v_poll_id v <> id -> In v (votes db'))
    /\ (forall p, In p (polls db) -> p_id p = id -> p_user_id p = u_id u ->
                  ~ In p (polls db')
                  /\ (polls_primary_key db ->
                      forall env', Actions.getPollById env' db' id
                                   = mkPollResult None (Some "Poll not found.") None)).
Proof.
  intros Hauth Hadmin Hf.
  destruct (authenticated_fields env u Hauth) as [Hu He].
  apply (isUserAdmin_iff env u Hu) in Hadmin.
  set (db' := mkDb (filter (fun p => negb (Store.poll_has_id id p)) (polls db))
                   (filter (fun v => negb (existsb
                                             (fun p => Store.poll_has_id id p
                                                       && String.eqb (p_id p) (v_poll_id v))
                                             (polls db)))
                           (votes db))).
  exists db'.
  assert (Hgone : forall q, In q (polls db') -> p_id q <> id).
  { intros q Hq. unfold db' in Hq. simpl in Hq. apply filter_In in Hq.
    destruct Hq as [_ Hq]. apply negb_true_iff in Hq. now apply String.eqb_neq. }
  repeat match goal with |- _ /\ _ => split end.
  - unfold Actions.adminDeletePoll, Store.delete_polls. now rewrite Hu, He, Hadmin, Hf.
  - unfold Routes.AdminPollId.DELETE, Store.delete_polls. now rewrite Hu, He, Hadmin, Hf.
  - intros q Hq. unfold db' in Hq. simpl in Hq. now apply filter_In in Hq.
  - intros v Hv. unfold db' in Hv. simpl in Hv. now apply filter_In in Hv.
  - intros q Hq Hne. unfold db'. simpl. apply filter_In. split; [assumption|].
    apply negb_true_iff. now apply String.eqb_neq.
  - intros v Hv Hne. unfold db'. simpl. apply filter_In. split; [assumption|].
    apply negb_true_iff. apply not_true_is_false. intros Hex.
    apply existsb_exists in Hex. destruct Hex as [x [_ Hx]].
    apply andb_true_iff in Hx. destruct Hx as [Hx1 Hx2].
    apply String.eqb_eq in Hx1. apply String.eqb_eq in Hx2. congruence.
  - intros p Hp Hid Hown. split.
    + intros Hin. now apply Hgone in Hin.
    + intros _ env'. destruct (select_poll_absent env' db' id Hgone) as [m Hm].
      unfold Actions.getPollById. now rewrite Hm.
Qed.

Lemma adminDeletePoll_admin_keeps_other_polls_witness :
  exists db',
    Actions.adminDeletePoll (env_of root) db0 "p1" = (None, db')
    /\ Routes.AdminPollId.DELETE (env_of root) db0 "p1" = (json None 200, db')
    /\ (forall q, In q (polls db') -> In q (polls db0))
    /\ (forall v, In v (votes db') -> In v (votes db0))
    /\ (forall q, In q (polls db0) -> p_id q <> "p1" -> In q (polls db'))
    /\ (forall v, In v (votes db0) -> v_poll_id v <> "p1" -> In v (votes db'))
    /\ (forall p, In p (polls db0) -> p_id p = "p1" -> p_user_id p = u_id root ->
                  ~ In p (polls db')
                  /\ (polls_primary_key db0 ->
                      forall env', Actions.getPollById env' db' "p1"
                                   = mkPollResult None (Some "Poll not found.") None)).
Proof.
  apply (adminDeletePoll_admin_keeps_other_polls (env_of root) db0 root "p1").
  - reflexivity.
  - exists "root@alxpolly.com". split; [reflexivity | simpl; tauto].
  - reflexivity.
Defined.

(** A signed-in caller whose email is not in the admin allow-list
    cannot delete through the admin path: [adminDeletePoll] answers
    "Admin access required." (status 403) and the store is unchanged,
    also when the caller owns the poll. *)
Theorem adminDeletePoll_admin_only (env : Env) (db : Db) (u : User) (id : string) :
  authenticated_as env u ->
  (forall e, u_email u = Some e -> ~ In e adminEmails) ->
  Actions.adminDeletePoll env db id = (Some "Admin access required.", db)
  /\ Routes.AdminPollId.DELETE env db id = (json (Some "Admin access required.") 403, db).
Proof.
  intros Hauth Hno. destruct (authenticated_fields env u Hauth) as [Hu He].
  pose proof (isUserAdmin_false env u Hu Hno) as Hadm.
  unfold Actions.adminDeletePoll, Routes.AdminPollId.DELETE.
  rewrite Hu, He, Hadm. split; reflexivity.
Qed.

Lemma adminDeletePoll_admin_only_witness :
  Actions.adminDeletePoll (env_of alice) db0 "p1" = (Some "Admin access required.", db0)
  /\ Routes.AdminPollId.DELETE (env_of alice) db0 "p1"
     = (json (Some "Admin access required.") 403, db0).
Proof.
  apply (adminDeletePoll_admin_only (env_of alice) db0 alice "p1").
  - reflexivity.
  - intros e [= <-]. simpl. intuition discriminate.
Defined.

(** ** Updating a poll *)

Lemma updatePoll_non_owner_forbidden_witness :
  Actions.updatePoll (env_of bob) db0 "p1" (poll_form "Lunch?" ["Soup"; "Salad"])
  = (Some "You can only edit your own polls.", db0)
  /\ Routes.PollId.PUT (env_of bob) db0 "p1" (poll_form "Lunch?" ["Soup"; "Salad"])
     = (json (Some "You can only edit your own polls.") 403, db0).
Proof.
  apply (updatePoll_non_owner_forbidden (env_of bob) db0 bob poll1 "Lunch?" ["Soup"; "Salad"]).
  - reflexivity.
  - reflexivity.
  - exact db0_primary_key.
  - simpl. tauto.
  - discriminate.
  - reflexivity.
Defined.

(** The owner of a poll who submits a form that passes validation
    (ids being a primary key, the store answering) gets a null error,
    status 200; in the store the poll keeps its id, owner and creation
    time and has the trimmed question and the trimmed non-empty options
    of the form; every other poll, the order of the polls and all the
    votes are as before, and [getPollById] returns the new text. *)
Theorem updatePoll_owner_replaces_text (env : Env) (db : Db) (u : User) (p : Poll)
        (q : string) (opts : list string) :
  authenticated_as env u ->
  fault env SelectPoll = None ->
  fault env UpdatePoll = None ->
  polls_primary_key db ->
  In p (polls db) ->
  p_user_id p = u_id u ->
  validate_poll_input (Some q) (filter truthy opts) = None ->
  let updated :=
    mkPoll (p_id p) (p_user_id p) (trim q) (map trim (filter truthy opts)) (p_created_at p) in
  exists db',
    Actions.updatePoll env db (p_id p) (poll_form q opts) = (None, db')
    /\ Routes.PollId.PUT env db (p_id p) (poll_form q opts) = (json None 200, db')
    /\ votes db' = votes db
    /\ map p_id (polls db') = map p_id (polls db)
    /\ (forall x, In x (polls db) -> x <> p -> In x (polls db'))
    /\ In updated (polls db')
    /\ Actions.getPollById env db' (p_id p) = mkPollResult (Some updated) None (Some true).
Proof.
  intros Hauth Hfs Hfu Hpk Hin Hown Hv updated.
  destruct (authenticated_fields env u Hauth) as [Hu He].
  set (patch := fun x : Poll =>
                  if Store.poll_has_id (p_id p) x && Store.poll_owned_by (u_id u) x
                  then mkPoll (p_id x) (p_user_id x) (trim q) (map trim (filter truthy opts))
                              (p_created_at x)
                  else x).
  exists (mkDb (map patch (polls db)) (votes db)).
  assert (Hids : map p_id (map patch (polls db)) = map p_id (polls db)).
  { rewrite map_map. apply map_ext. intros x. unfold patch.
    now destruct (Store.poll_has_id (p_id p) x && Store.poll_owned_by (u_id u) x). }
  assert (Hupd : In updated (map patch (polls db))).
  { apply in_map_iff. exists p. split; [|assumption]. unfold patch, updated.
    unfold Store.poll_has_id, Store.poll_owned_by.
    rewrite String.eqb_refl. rewrite Hown, String.eqb_refl. reflexivity. }
  assert (Howner : negb (String.eqb (p_user_id p) (u_id u)) = false).
  { rewrite Hown, String.eqb_refl. reflexivity. }
  repeat match goal with |- _ /\ _ => split end.
  - unfold Actions.updatePoll, Store.update_poll.
    rewrite formData_get_poll_form, formData_getAll_poll_form, Hv, Hu, He.
    rewrite (select_poll_present env db p Hfs Hpk Hin), Howner, Hfu. reflexivity.
  - unfold Routes.PollId.PUT, Store.update_poll.
    rewrite formData_get_poll_form, formData_getAll_poll_form, Hv, Hu, He.
    rewrite (select_poll_present env db p Hfs Hpk Hin), Howner, Hfu. reflexivity.
  - reflexivity.
  - exact Hids.
  - intros x Hx Hne. simpl. apply in_map_iff. exists x. split; [|assumption].
    unfold patch, Store.poll_has_id.
    destruct (String.eqb_spec (p_id x) (p_id p)) as [E|E]; [|reflexivity].
    exfalso. apply Hne. now apply (primary_key_inj (polls db) p x).
  - exact Hupd.
  - unfold Actions.getPollById.
    change (p_id p) with (p_id updated).
    rewrite (select_poll_present env (mkDb (map patch (polls db)) (votes db)) updated Hfs).
    + unfold same_user. rewrite Hu. simpl. rewrite Hown, String.eqb_refl. reflexivity.
    + unfold polls_primary_key. simpl. rewrite Hids. exact Hpk.
    + exact Hupd.
Qed.

Lemma updatePoll_owner_replaces_text_witness :
  exists db',
    Actions.updatePoll (env_of alice) db0 "p1" (poll_form " Best season? " ["Summer "; ""; "Winter"])
    = (None, db')
    /\ Routes.PollId.PUT (env_of alice) db0 "p1" (poll_form " Best season? " ["Summer "; ""; "Winter"])
       = (json None 200, db')
    /\ votes db' = votes db0
    /\ map p_id (polls db') = map p_id (polls db0)
    /\ (forall x, In x (polls db0) -> x <> poll1 -> In x (polls db'))
    /\ In (mkPoll "p1" "alice" "Best season?" ["Summer"; "Winter"] 100) (polls db')
    /\ Actions.getPollById (env_of alice) db' "p1"
       = mkPollResult (Some (mkPoll "p1" "alice" "Best season?" ["Summer"; "Winter"] 100))
                      None (Some true).
Proof.
  apply (updatePoll_owner_replaces_text (env_of alice) db0 alice poll1
           " Best season? " ["Summer "; ""; "Winter"]).
  - reflexivity.
  - reflexivity.
  - reflexivity.
  - exact db0_primary_key.
  - simpl. tauto.
  - reflexivity.
  - reflexivity.
Defined.

(** A signed-in caller who submits a form that passes validation for a
    poll id that no poll of the store has gets "Poll not found."
    (status 404), and the store is unchanged: [updatePoll] creates
    nothing. *)
Theorem updatePoll_missing_poll (env : Env) (db : Db) (u : User) (id q : string)
        (opts : list string) :
  authenticated_as env u ->
  validate_poll_input (Some q) (filter truthy opts) = None ->
  (forall p, In p (polls db) -> p_id p <> id) ->
  Actions.updatePoll env db id (poll_form q opts) = (Some "Poll not found.", db)
  /\ Routes.PollId.PUT env db id (poll_form q opts) = (json (Some "Poll not found.") 404, db).
Proof.
  intros Hauth Hv Habs. destruct (authenticated_fields env u Hauth) as [Hu He].
  destruct (select_poll_absent env db id Habs) as [m Hm].
  unfold Actions.updatePoll, Routes.PollId.PUT.
  rewrite formData_get_poll_form, formData_getAll_poll_form, Hv, Hu, He, Hm.
  split; reflexivity.
Qed.

Lemma updatePoll_missing_poll_witness :
  Actions.updatePoll (env_of alice) db0 "p7" (poll_form "Lunch?" ["Soup"; "Salad"])
  = (Some "Poll not found.", db0)
  /\ Routes.PollId.PUT (env_of alice) db0 "p7" (poll_form "Lunch?" ["Soup"; "Salad"])
     = (json (Some "Poll not found.") 404, db0).
Proof.
  apply (updatePoll_missing_poll (env_of alice) db0 alice "p7" "Lunch?" ["Soup"; "Salad"]).
  - reflexivity.
  - reflexivity.
  - intros p Hp. simpl in Hp. destruct Hp as [<- | [<- | [<- | []]]]; discriminate.
Defined.

(** ** Creating a poll and reading it back *)

(** After a signed-in caller has created a poll from a form that passes
    validation (the store answering and giving the poll an unused id),
    ids are still a primary key, [getPollById] with the new id returns
    the poll as stored, with [canEdit] true for its creator, and the
    poll is in the creator's [getUserPolls]. *)
Theorem createPoll_then_read (env : Env) (db : Db) (u : User) (q : string)
        (opts : list string) :
  authenticated_as env u ->
  store_healthy env ->
  polls_primary_key db ->
  ~ In (new_id env) (map p_id (polls db)) ->
  validate_poll_input (Some q) (filter truthy opts) = None ->
  let created :=
    mkPoll (new_id env) (u_id u) (trim q) (map trim (filter truthy opts)) (now env) in
  let db' := mkDb (polls db ++ [created]) (votes db) in
  Actions.createPoll env db (poll_form q opts) = (None, db')
  /\ polls_primary_key db'
  /\ Actions.getPollById env db' (new_id env) = mkPollResult (Some created) None (Some true)
  /\ In created (res_polls (Actions.getUserPolls env db'))
  /\ res_polls_error (Actions.getUserPolls env db') = None.
Proof.
  intros Hauth Hh Hpk Hfresh Hv created db'.
  destruct (authenticated_fields env u Hauth) as [Hu He].
  assert (Hpk' : polls_primary_key db').
  { unfold polls_primary_key, db'. simpl. rewrite map_app. simpl.
    apply NoDup_app; [exact Hpk | repeat constructor; simpl; tauto |].
    intros k Hk [<- | []]. now apply Hfresh. }
  assert (Hin : In created (polls db')).
  { unfold db'. simpl. apply in_or_app. right. now left. }
  repeat match goal with |- _ /\ _ => split end.
  - unfold Actions.createPoll, Store.insert_poll.
    rewrite formData_get_poll_form, formData_getAll_poll_form, Hv, Hu, He.
    now rewrite (Hh InsertPoll).
  - exact Hpk'.
  - unfold Actions.getPollById. change (new_id env) with (p_id created).
    rewrite (select_poll_present env db' created (Hh SelectPoll) Hpk' Hin).
    unfold same_user. rewrite Hu. simpl. now rewrite String.eqb_refl.
  - unfold Actions.getUserPolls, Store.select_user_polls, Store.request.
    rewrite Hu, (Hh SelectUserPolls). simpl.
    eapply Permutation_in; [apply order_created_at_desc_perm|].
    apply filter_In. split; [exact Hin|].
    unfold Store.poll_owned_by. simpl. apply String.eqb_refl.
  - unfold Actions.getUserPolls, Store.select_user_polls, Store.request.
    now rewrite Hu, (Hh SelectUserPolls).
Qed.

Lemma createPoll_then_read_witness :
  Actions.createPoll (env_of carol) db0 (poll_form "Tea or coffee? " ["Tea"; ""; " Coffee"])
  = (None, mkDb (polls db0 ++ [mkPoll "p9" "carol" "Tea or coffee?" ["Tea"; "Coffee"] 900])
               (votes db0)).
Proof.
  apply (createPoll_then_read (env_of carol) db0 carol
           "Tea or coffee? " ["Tea"; ""; " Coffee"]).
  - reflexivity.
  - apply env_of_healthy.
  - exact db0_primary_key.
  - simpl. intuition discriminate.
  - reflexivity.
Defined.

(** ** The caller's own polls *)

(** For a session with a user and a store that answers, [getUserPolls]
    and [GET /polls] return, newest first and without error, exactly
    the polls of the store whose owner is that user: never a poll of
    somebody else, and none of the user's polls is missing. *)
Theorem getUserPolls_only_own (env : Env) (db : Db) (u : User) :
  auth_user (getUser env) = Some u ->
  fault env SelectUserPolls = None ->
  exists data,
    Actions.getUserPolls env db = mkPollsResult data None
    /\ Routes.Polls.GET env db = json (mkPollsResult data None) 200
    /\ (forall p, In p data <-> In p (polls db) /\ p_user_id p = u_id u)
    /\ created_at_desc data.
Proof.
  intros Hu Hf.
  exists (Store.order_created_at_desc (filter (Store.poll_owned_by (u_id u)) (polls db))).
  unfold Actions.getUserPolls, Routes.Polls.GET, Store.select_user_polls, Store.request.
  rewrite Hu, Hf. repeat match goal with |- _ /\ _ => split end; try reflexivity.
  - intros p. rewrite <- (String.eqb_eq (p_user_id p) (u_id u)).
    change (String.eqb (p_user_id p) (u_id u)) with (Store.poll_owned_by (u_id u) p).
    rewrite <- filter_In. split; intros H.
    + eapply Permutation_in; [symmetry; apply order_created_at_desc_perm | exact H].
    + eapply Permutation_in; [apply order_created_at_desc_perm | exact H].
  - apply order_created_at_desc_sorted.
Qed.

Lemma getUserPolls_only_own_witness :
  exists data,
    Actions.getUserPolls (env_of alice) db0 = mkPollsResult data None
    /\ Routes.Polls.GET (env_of alice) db0 = json (mkPollsResult data None) 200
    /\ (forall p, In p data <-> In p (polls db0) /\ p_user_id p = u_id alice)
    /\ created_at_desc data.
Proof.
  apply (getUserPolls_only_own (env_of alice) db0 alice).
  - reflexivity.
  - reflexivity.
Defined.

(** ** What a handler can do to the store *)

Ltac unchanged_or_store_call :=
  simpl;
  first
    [ left; reflexivity
    | right;
      try (split; [first [reflexivity | assumption]|]);
      match goal with
      | H : Store.insert_poll _ _ ?uid _ _ = _ |- _ => exists uid; rewrite H; reflexivity
      | H : Store.update_poll _ _ _ ?uid _ _ = _ |- _ => exists uid; rewrite H; reflexivity
      | H : Store.delete_polls _ _ ?m = _ |- _ => exists m; rewrite H; reflexivity
      end ].

(** [createPoll] and [POST /polls] either leave the store alone or
    insert one poll, from a form that passed validation. *)
Lemma createPoll_effect (env : Env) (db : Db) (formData : FormData) :
  let question := formData_get "question" formData in
  let options := filter truthy (formData_getAll "options" formData) in
  forall db',
    db' = snd (Actions.createPoll env db formData)
    \/ db' = snd (Routes.Polls.POST env db formData) ->
    db' = db
    \/ (validate_poll_input question options = None
        /\ exists uid,
            db' = snd (Store.insert_poll env db uid (trim (as_string question))
                         (map trim options))).
Proof.
  intros question options db' [-> | ->].
  - unfold Actions.createPoll. fold question options.
    case_handler; unchanged_or_store_call.
  - unfold Routes.Polls.POST. fold question options.
    case_handler; unchanged_or_store_call.
Qed.

(** [updatePoll] and [PUT /polls/{id}] either leave the store alone or
    patch the polls with the given id and owner, from a form that
    passed validation. *)
Lemma updatePoll_effect (env : Env) (db : Db) (id : string) (formData : FormData) :
  let question := formData_get "question" formData in
  let options := filter truthy (formData_getAll "options" formData) in
  forall db',
    db' = snd (Actions.updatePoll env db id formData)
    \/ db' = snd (Routes.PollId.PUT env db id formData) ->
    db' = db
    \/ (validate_poll_input question options = None
        /\ exists uid,
            db' = snd (Store.update_poll env db id uid (trim (as_string question))
                         (map trim options))).
Proof.
  intros question options db' [-> | ->].
  - unfold Actions.updatePoll. fold question options.
    case_handler; unchanged_or_store_call.
  - unfold Routes.PollId.PUT. fold question options.
    case_handler; unchanged_or_store_call.
Qed.

(** The deleting handlers either leave the store alone or run one
    delete. *)
Lemma delete_effect (env : Env) (db : Db) (id : string) :
  forall db',
    db' = snd (Actions.deletePoll env db id)
    \/ db' = snd (Routes.PollId.DELETE env db id)
    \/ db' = snd (Actions.adminDeletePoll env db id)
    \/ db' = snd (Routes.AdminPollId.DELETE env db id) ->
    db' = db \/ exists matches, db' = snd (Store.delete_polls env db matches).
Proof.
  intros db' [-> | [-> | [-> | ->]]].
  - unfold Actions.deletePoll. case_handler; unchanged_or_store_call.
  - unfold Routes.PollId.DELETE. case_handler; unchanged_or_store_call.
  - unfold Actions.adminDeletePoll. case_handler; unchanged_or_store_call.
  - unfold Routes.AdminPollId.DELETE. case_handler; unchanged_or_store_call.
Qed.

Lemma checked_option_index (pollId : string) (optionIndex : json_value) (count : nat) :
  negb (truthy pollId) || not_number_or_negative optionIndex = false ->
  (Z.of_nat count <=? number_of optionIndex)%Z = false ->
  exists n, optionIndex = JNumber n
            /\ (0 <= n < Z.of_nat count)%Z
            /\ number_of optionIndex = n.
Proof.
  intros Hok Hidx. apply orb_false_iff in Hok. destruct Hok as [_ Hneg].
  destruct optionIndex as [n|]; [|discriminate]. exists n. simpl in *.
  apply Z.ltb_ge in Hneg. apply Z.leb_gt in Hidx. repeat split; lia.
Qed.

(** [submitVote] and [POST /polls/{id}/vote] either leave the store
    alone or insert one vote, on a poll the store returned for the
    given id, for an option index within that poll's options, with the
    session user, if any, as voter. *)
Lemma submitVote_effect (env : Env) (db : Db) (pollId : string) (optionIndex : json_value) :
  forall db',
    db' = snd (Actions.submitVote env db pollId optionIndex)
    \/ db' = snd (Routes.Vote.POST env db pollId optionIndex) ->
    db' = db
    \/ exists poll n,
        Store.select_poll env db pollId = Data poll
        /\ optionIndex = JNumber n
        /\ (0 <= n < Z.of_nat (List.length (p_options poll)))%Z
        /\ db' = snd (Store.insert_vote env db pollId
                        (option_map u_id (auth_user (getUser env))) n).
Proof.
  intros db' [-> | ->].
  - unfold Actions.submitVote.
    destruct (negb (truthy pollId) || not_number_or_negative optionIndex) eqn:Hok;
      [left; reflexivity|].
    destruct (Store.select_poll env db pollId) as [poll|m] eqn:Hsel; [|left; reflexivity].
    destruct (Z.of_nat (List.length (p_options poll)) <=? number_of optionIndex)%Z eqn:Hidx;
      [left; reflexivity|].
    destruct (checked_option_index pollId optionIndex _ Hok Hidx) as [n [Hn [Hr Hnum]]].
    rewrite Hnum.
    destruct (auth_user (getUser env)) as [u|]; simpl.
    + destruct (Store.select_vote env db pollId (u_id u)); [left; reflexivity|].
      destruct (Store.insert_vote env db pollId (Some (u_id u)) n) as [r d] eqn:Eins.
      right. exists poll, n. rewrite Eins. destruct r; simpl; auto.
    + destruct (Store.insert_vote env db pollId None n) as [r d] eqn:Eins.
      right. exists poll, n. rewrite Eins. destruct r; simpl; auto.
  - unfold Routes.Vote.POST.
    destruct (negb (truthy pollId) || not_number_or_negative optionIndex) eqn:Hok;
      [left; reflexivity|].
    destruct (Store.select_poll env db pollId) as [poll|m] eqn:Hsel; [|left; reflexivity].
    destruct (Z.of_nat (List.length (p_options poll)) <=? number_of optionIndex)%Z eqn:Hidx;
      [left; reflexivity|].
    destruct (checked_option_index pollId optionIndex _ Hok Hidx) as [n [Hn [Hr Hnum]]].
    rewrite Hnum.
    destruct (auth_user (getUser env)) as [u|]; simpl.
    + destruct (Store.select_vote env db pollId (u_id u)); [left; reflexivity|].
      destruct (Store.insert_vote env db pollId (Some (u_id u)) n) as [r d] eqn:Eins.
      right. exists poll, n. rewrite Eins. destruct r; simpl; auto.
    + destruct (Store.insert_vote env db pollId None n) as [r d] eqn:Eins.
      right. exists poll, n. rewrite Eins. destruct r; simpl; auto.
Qed.

(** ** Trimming *)

Lemma trimEnd_cons (c : ascii) (s : string) :
  trimEnd (String c s)
  = match trimEnd s with
    | EmptyString => if is_white_space c then EmptyString else String c EmptyString
    | String a kept => String c (String a kept)
    end.
Proof. simpl. now destruct (trimEnd s). Qed.

Lemma trimStart_length (s : string) : String.length (trimStart s) <= String.length s.
Proof.
  induction s as [|c s IH]; simpl; [lia|].
  destruct (is_white_space c); simpl; lia.
Qed.

Lemma trimEnd_length (s : string) : String.length (trimEnd s) <= String.length s.
Proof.
  induction s as [|c s IH]; [simpl; lia|].
  rewrite trimEnd_cons. destruct (trimEnd s) as [|a kept].
  - destruct (is_white_space c); simpl; lia.
  - simpl in *. lia.
Qed.

Lemma trim_length (s : string) : String.length (trim s) <= String.length s.
Proof.
  unfold trim. pose proof (trimEnd_length (trimStart s)). pose proof (trimStart_length s). lia.
Qed.

Lemma trimEnd_idempotent (s : string) : trimEnd (trimEnd s) = trimEnd s.
Proof.
  induction s as [|c s IH]; [reflexivity|].
  rewrite trimEnd_cons. destruct (trimEnd s) as [|a kept] eqn:E.
  - destruct (is_white_space c) eqn:Ec; [reflexivity|].
    rewrite trimEnd_cons. simpl. now rewrite Ec.
  - rewrite trimEnd_cons, IH. reflexivity.
Qed.

Lemma trimStart_head (s : string) :
  trimStart s = EmptyString
  \/ exists c rest, trimStart s = String c rest /\ is_white_space c = false.
Proof.
  induction s as [|c s IH]; simpl; [now left|].
  destruct (is_white_space c) eqn:Ec; [exact IH|].
  right. now exists c, s.
Qed.

Lemma trimEnd_keeps_head (c : ascii) (s : string) :
  is_white_space c = false -> exists kept, trimEnd (String c s) = String c kept.
Proof.
  intros Ec. rewrite trimEnd_cons. destruct (trimEnd s) as [|a kept].
  - rewrite Ec. now exists EmptyString.
  - now exists (String a kept).
Qed.

(** Trimming a trimmed string changes nothing. *)
Lemma trim_idempotent (s : string) : trim (trim s) = trim s.
Proof.
  unfold trim. destruct (trimStart_head s) as [E | [c [rest [E Ec]]]]; rewrite E.
  - reflexivity.
  - destruct (trimEnd_keeps_head c rest Ec) as [kept Ek]. rewrite Ek.
    simpl trimStart. rewrite Ec, <- Ek. apply trimEnd_idempotent.
Qed.

(** ** What validation guarantees *)

Lemma validate_options_passed (l : list string) :
  validate_options l = None ->
  Forall (fun o => 1 <= String.length (trim o) /\ String.length o <= 200) l.
Proof.
  induction l as [|o l IH]; simpl; intros H; [constructor|].
  destruct (negb (truthy o) || (String.length (trim o) =? 0)%nat) eqn:E1; [discriminate|].
  destruct (Nat.ltb_spec 200 (String.length o)) as [|E2]; [discriminate|].
  apply orb_false_iff in E1. destruct E1 as [_ E1]. apply Nat.eqb_neq in E1.
  constructor; [lia | now apply IH].
Qed.

Lemma validate_poll_input_passed (question : option string) (options : list string) :
  validate_poll_input question options = None ->
  exists q,
    question = Some q
    /\ 1 <= String.length (trim q) /\ String.length q <= 500
    /\ 2 <= List.length options <= 10
    /\ Forall (fun o => 1 <= String.length (trim o) /\ String.length o <= 200) options.
Proof.
  unfold validate_poll_input. destruct question as [q|]; [|discriminate].
  destruct (negb (truthy q) || (String.length (trim q) =? 0)%nat) eqn:E1; [discriminate|].
  destruct (Nat.ltb_spec 500 (String.length q)) as [|E2]; [discriminate|].
  destruct (Nat.ltb_spec (List.length options) 2) as [|E3]; [discriminate|].
  destruct (Nat.ltb_spec 10 (List.length options)) as [|E4]; [discriminate|].
  intros Hopts. exists q.
  apply orb_false_iff in E1. destruct E1 as [_ E1]. apply Nat.eqb_neq in E1.
  repeat split; try lia. now apply validate_options_passed.
Qed.

(** The text a handler passes to the store once validation has passed
    is within the limits of the schema and carries no surrounding
    whitespace. *)
Lemma validated_text_well_formed (question : option string) (options : list string)
      (id uid : string) (t : Z) :
  validate_poll_input question options = None ->
  let stored := mkPoll id uid (trim (as_string question)) (map trim options) t in
  poll_within_limits stored /\ poll_trimmed stored.
Proof.
  intros Hv stored.
  destruct (validate_poll_input_passed question options Hv)
    as [q [-> [Hq1 [Hq2 [Hcount Hopts]]]]].
  unfold poll_within_limits, poll_trimmed, stored. simpl.
  pose proof (trim_length q).
  repeat split; try lia.
  - rewrite length_map. lia.
  - rewrite length_map. lia.
  - apply Forall_map. eapply Forall_impl; [|exact Hopts].
    cbv beta. intros o [Ho1 Ho2]. pose proof (trim_length o). lia.
  - apply trim_idempotent.
  - apply Forall_map. apply Forall_forall. intros o _. apply trim_idempotent.
Qed.

(** ** What the store calls keep *)

Lemma insert_poll_polls (env : Env) (db : Db) (uid q : string) (o : list string) :
  snd (Store.insert_poll env db uid q o) = db
  \/ snd (Store.insert_poll env db uid q o)
     = mkDb (polls db ++ [mkPoll (new_id env) uid q o (now env)]) (votes db).
Proof. unfold Store.insert_poll. destruct (fault env InsertPoll); simpl; auto. Qed.

Lemma update_poll_shape (env : Env) (db : Db) (id uid q : string) (o : list string) :
  votes (snd (Store.update_poll env db id uid q o)) = votes db
  /\ map p_id (polls (snd (Store.update_poll env db id uid q o))) = map p_id (polls db)
  /\ forall x, In x (polls (snd (Store.update_poll env db id uid q o))) ->
               In x (polls db)
               \/ exists y, In y (polls db)
                            /\ x = mkPoll (p_id y) (p_user_id y) q o (p_created_at y).
Proof.
  unfold Store.update_poll. destruct (fault env UpdatePoll); simpl.
  - repeat split. intros x Hx. now left.
  - repeat split.
    + rewrite map_map. apply map_ext. intros x.
      now destruct (Store.poll_has_id id x && Store.poll_owned_by uid x).
    + intros x Hx. apply in_map_iff in Hx. destruct Hx as [y [Hy Hin]].
      destruct (Store.poll_has_id id y && Store.poll_owned_by uid y).
      * right. exists y. split; [assumption | now symmetry].
      * left. now subst.
Qed.

Lemma delete_polls_shape (env : Env) (db : Db) (matches : Poll -> bool) :
  snd (Store.delete_polls env db matches) = db
  \/ snd (Store.delete_polls env db matches)
     = mkDb (filter (fun p => negb (matches p)) (polls db))
            (filter (fun v => negb (existsb (fun p => matches p
                                                     && String.eqb (p_id p) (v_poll_id v))
                                            (polls db)))
                    (votes db)).
Proof. unfold Store.delete_polls. destruct (fault env DeletePoll); simpl; auto. Qed.

Lemma insert_vote_shape (env : Env) (db : Db) (pollId : string) (uid : option string) (n : Z) :
  snd (Store.insert_vote env db pollId uid n) = db
  \/ snd (Store.insert_vote env db pollId uid n)
     = mkDb (polls db) (votes db ++ [mkVote (new_id env) pollId uid n (now env)]).
Proof. unfold Store.insert_vote. destruct (fault env InsertVote); simpl; auto. Qed.

Lemma select_poll_found (env : Env) (db : Db) (id : string) (p : Poll) :
  Store.select_poll env db id = Data p -> In p (polls db) /\ p_id p = id.
Proof.
  unfold Store.select_poll, Store.request. destruct (fault env SelectPoll); [discriminate|].
  simpl. destruct (filter (Store.poll_has_id id) (polls db)) as [|x [|y l]] eqn:E;
    try discriminate.
  intros [= ->]. assert (Hin : In p (filter (Store.poll_has_id id) (polls db))).
  { rewrite E. now left. }
  apply filter_In in Hin. destruct Hin as [Hin Hid]. split; [assumption|].
  now apply String.eqb_eq.
Qed.

Lemma NoDup_map_filter (A B : Type) (f : A -> B) (g : A -> bool) (l : list A) :
  NoDup (map f l) -> NoDup (map f (filter g l)).
Proof.
  induction l as [|x l IH]; simpl; intros H; [constructor|].
  apply NoDup_cons_iff in H. destruct H as [Hx Hl].
  destruct (g x); simpl; [|now apply IH].
  constructor; [|now apply IH].
  intros Hin. apply Hx. apply in_map_iff in Hin. destruct Hin as [y [Hy Hin]].
  apply filter_In in Hin. apply in_map_iff. exists y. tauto.
Qed.

Lemma voter_keys_filter (g : Vote -> bool) (l : list Vote) :
  NoDup (voter_keys l) -> NoDup (voter_keys (filter g l)).
Proof.
  induction l as [|v l IH]; simpl; intros H; [constructor|].
  assert (Hl : NoDup (voter_keys l)).
  { destruct (v_user_id v); [now apply NoDup_cons_iff in H | assumption]. }
  destruct (g v); [|now apply IH]. simpl.
  destruct (v_user_id v) as [u|]; [|now apply IH]. simpl in *.
  apply NoDup_cons_iff in H. destruct H as [Hfresh _].
  constructor; [|now apply IH].
  intros Hin. apply Hfresh. apply voter_key_has_vote in Hin.
  destruct Hin as [w [Hw [Hp Hu]]]. apply filter_In in Hw. destruct Hw as [Hw _].
  unfold voter_keys. apply in_flat_map. exists w. split; [assumption|].
  rewrite Hu, Hp. now left.
Qed.

(** ** Invariants of the tables *)

Lemma db0_well_formed : polls_well_formed db0.
Proof.
  unfold polls_well_formed, poll_within_limits, poll_trimmed. simpl.
  repeat constructor; vm_compute; try reflexivity; try lia; intros H; discriminate H.
Qed.

Lemma db0_votes_reference_polls : votes_reference_polls db0.
Proof. unfold votes_reference_polls. simpl. repeat constructor; simpl; tauto. Qed.

(** Whatever the request, the polls a handler leaves in the store are
    within the limits of the schema (a question of 1 to 500 characters,
    2 to 10 options of 1 to 200 characters) and carry no surrounding
    whitespace, if the polls it found were. *)
Theorem handlers_keep_polls_well_formed (env : Env) (db : Db) (id : string)
        (formData : FormData) (optionIndex : json_value) :
  polls_well_formed db ->
  Forall polls_well_formed (mutated_stores env db id formData optionIndex).
Proof.
  intros Hwf.
  assert (Hcreate : forall db',
             db' = snd (Actions.createPoll env db formData)
             \/ db' = snd (Routes.Polls.POST env db formData) -> polls_well_formed db').
  { intros db' H. destruct (createPoll_effect env db formData db' H)
      as [-> | [Hv [uid ->]]]; [assumption|].
    destruct (insert_poll_polls env db uid
                (trim (as_string (formData_get "question" formData)))
                (map trim (filter truthy (formData_getAll "options" formData))))
      as [-> | ->]; [assumption|].
    unfold polls_well_formed. simpl. apply Forall_app. split; [assumption|].
    constructor; [|constructor]. now apply validated_text_well_formed. }
  assert (Hupdate : forall db',
             db' = snd (Actions.updatePoll env db id formData)
             \/ db' = snd (Routes.PollId.PUT env db id formData) -> polls_well_formed db').
  { intros db' H. destruct (updatePoll_effect env db id formData db' H)
      as [-> | [Hv [uid ->]]]; [assumption|].
    unfold polls_well_formed in *. rewrite Forall_forall in *. intros x Hx.
    apply update_poll_shape in Hx. destruct Hx as [Hx | [y [_ ->]]]; [now apply Hwf|].
    now apply validated_text_well_formed. }
  assert (Hdelete : forall db',
             db' = snd (Actions.deletePoll env db id)
             \/ db' = snd (Routes.PollId.DELETE env db id)
             \/ db' = snd (Actions.adminDeletePoll env db id)
             \/ db' = snd (Routes.AdminPollId.DELETE env db id) -> polls_well_formed db').
  { intros db' H. destruct (delete_effect env db id db' H) as [-> | [m ->]]; [assumption|].
    destruct (delete_polls_shape env db m) as [-> | ->]; [assumption|].
    unfold polls_well_formed in *. rewrite Forall_forall in *. simpl. intros x Hx.
    apply filter_In in Hx. now apply Hwf. }
  assert (Hvote : forall db',
             db' = snd (Actions.submitVote env db id optionIndex)
             \/ db' = snd (Routes.Vote.POST env db id optionIndex) -> polls_well_formed db').
  { intros db' H. destruct (submitVote_effect env db id optionIndex db' H)
      as [-> | [poll [n [_ [_ [_ ->]]]]]]; [assumption|].
    now destruct (insert_vote_shape env db id
                    (option_map u_id (auth_user (getUser env))) n) as [-> | ->]. }
  unfold mutated_stores. repeat constructor; auto 6.
Qed.

Lemma handlers_keep_polls_well_formed_witness :
  Forall polls_well_formed
    (mutated_stores (env_of alice) db0 "p1" (poll_form " Lunch? " ["Soup "; "Salad"])
       (JNumber 0)).
Proof.
  apply (handlers_keep_polls_well_formed (env_of alice) db0 "p1"
           (poll_form " Lunch? " ["Soup "; "Salad"]) (JNumber 0)).
  exact db0_well_formed.
Defined.

(** Whatever the request, every vote a handler leaves in the store is
    on a poll of the store, if every vote it found was: a vote is only
    inserted for a poll the store returned, and a delete takes the
    votes of the deleted polls with it. *)
Theorem handlers_keep_votes_on_polls (env : Env) (db : Db) (id : string)
        (formData : FormData) (optionIndex : json_value) :
  votes_reference_polls db ->
  Forall votes_reference_polls (mutated_stores env db id formData optionIndex).
Proof.
  intros Href. unfold votes_reference_polls in Href. rewrite Forall_forall in Href.
  assert (Hcreate : forall db',
             db' = snd (Actions.createPoll env db formData)
             \/ db' = snd (Routes.Polls.POST env db formData) -> votes_reference_polls db').
  { intros db' H. unfold votes_reference_polls. rewrite Forall_forall.
    destruct (createPoll_effect env db formData db' H)
      as [-> | [Hv [uid ->]]]; [assumption|].
    destruct (insert_poll_polls env db uid
                (trim (as_string (formData_get "question" formData)))
                (map trim (filter truthy (formData_getAll "options" formData))))
      as [-> | ->]; [assumption|].
    simpl. intros v Hv'. rewrite map_app. apply in_or_app. left. now apply Href. }
  assert (Hupdate : forall db',
             db' = snd (Actions.updatePoll env db id formData)
             \/ db' = snd (Routes.PollId.PUT env db id formData) -> votes_reference_polls db').
  { intros db' H. unfold votes_reference_polls. rewrite Forall_forall.
    destruct (updatePoll_effect env db id formData db' H)
      as [-> | [Hv [uid ->]]]; [assumption|].
    match goal with
    | |- context [Store.update_poll ?e ?d ?i ?u ?q ?o] =>
        destruct (update_poll_shape e d i u q o) as [Hvotes [Hids _]]
    end.
    rewrite Hvotes, Hids. assumption. }
  assert (Hdelete : forall db',
             db' = snd (Actions.deletePoll env db id)
             \/ db' = snd (Routes.PollId.DELETE env db id)
             \/ db' = snd (Actions.adminDeletePoll env db id)
             \/ db' = snd (Routes.AdminPollId.DELETE env db id) -> votes_reference_polls db').
  { intros db' H. unfold votes_reference_polls. rewrite Forall_forall.
    destruct (delete_effect env db id db' H) as [-> | [m ->]]; [assumption|].
    destruct (delete_polls_shape env db m) as [-> | ->]; [assumption|].
    simpl. intros v Hv. apply filter_In in Hv. destruct Hv as [Hv Hkept].
    apply negb_true_iff in Hkept.
    specialize (Href v Hv). apply in_map_iff in Href. destruct Href as [p [Hid Hp]].
    apply in_map_iff. exists p. split; [assumption|]. apply filter_In.
    split; [assumption|]. apply negb_true_iff. apply not_true_is_false. intros Hm.
    assert (Hex : existsb (fun q => m q && String.eqb (p_id q) (v_poll_id v)) (polls db)
                  = true).
    { apply existsb_exists. exists p. split; [assumption|].
      rewrite Hm, Hid. simpl. apply String.eqb_refl. }
    congruence. }
  assert (Hvote : forall db',
             db' = snd (Actions.submitVote env db id optionIndex)
             \/ db' = snd (Routes.Vote.POST env db id optionIndex) -> votes_reference_polls db').
  { intros db' H. unfold votes_reference_polls. rewrite Forall_forall.
    destruct (submitVote_effect env db id optionIndex db' H)
      as [-> | [poll [n [Hsel [_ [_ ->]]]]]]; [assumption|].
    destruct (insert_vote_shape env db id
                (option_map u_id (auth_user (getUser env))) n) as [-> | ->]; [assumption|].
    simpl. intros v Hv. apply in_app_or in Hv. destruct Hv as [Hv | [<- | []]].
    - now apply Href.
    - simpl. apply select_poll_found in Hsel. destruct Hsel as [Hin <-].
      now apply in_map. }
  unfold mutated_stores. repeat constructor; auto 6.
Qed.

Lemma handlers_keep_votes_on_polls_witness :
  Forall votes_reference_polls
    (mutated_stores (env_of alice) db0 "p1" (poll_form " Lunch? " ["Soup "; "Salad"])
       (JNumber 0)).
Proof.
  apply (handlers_keep_votes_on_polls (env_of alice) db0 "p1"
           (poll_form " Lunch? " ["Soup "; "Salad"]) (JNumber 0)).
  exact db0_votes_reference_polls.
Defined.

(** Whatever the request, poll ids stay a primary key, the store giving
    a new poll an id that no poll has: updating keeps every id and
    deleting only removes rows. *)
Theorem handlers_keep_primary_key (env : Env) (db : Db) (id : string)
        (formData : FormData) (optionIndex : json_value) :
  polls_primary_key db ->
  ~ In (new_id env) (map p_id (polls db)) ->
  Forall polls_primary_key (mutated_stores env db id formData optionIndex).
Proof.
  intros Hpk Hfresh. unfold polls_primary_key in *.
  assert (Hcreate : forall db',
             db' = snd (Actions.createPoll env db formData)
             \/ db' = snd (Routes.Polls.POST env db formData) -> NoDup (map p_id (polls db'))).
  { intros db' H. destruct (createPoll_effect env db formData db' H)
      as [-> | [Hv [uid ->]]]; [assumption|].
    destruct (insert_poll_polls env db uid
                (trim (as_string (formData_get "question" formData)))
                (map trim (filter truthy (formData_getAll "options" formData))))
      as [-> | ->]; [assumption|].
    simpl. rewrite map_app. simpl.
    apply NoDup_app; [assumption | repeat constructor; simpl; tauto |].
    intros k Hk [<- | []]. now apply Hfresh. }
  assert (Hupdate : forall db',
             db' = snd (Actions.updatePoll env db id formData)
             \/ db' = snd (Routes.PollId.PUT env db id formData) ->
             NoDup (map p_id (polls db'))).
  { intros db' H. destruct (updatePoll_effect env db id formData db' H)
      as [-> | [Hv [uid ->]]]; [assumption|].
    match goal with
    | |- context [Store.update_poll ?e ?d ?i ?u ?q ?o] =>
        destruct (update_poll_shape e d i u q o) as [_ [Hids _]]
    end.
    now rewrite Hids. }
  assert (Hdelete : forall db',
             db' = snd (Actions.deletePoll env db id)
             \/ db' = snd (Routes.PollId.DELETE env db id)
             \/ db' = snd (Actions.adminDeletePoll env db id)
             \/ db' = snd (Routes.AdminPollId.DELETE env db id) ->
             NoDup (map p_id (polls db'))).
  { intros db' H. destruct (delete_effect env db id db' H) as [-> | [m ->]]; [assumption|].
    destruct (delete_polls_shape env db m) as [-> | ->]; [assumption|].
    simpl. now apply NoDup_map_filter. }
  assert (Hvote : forall db',
             db' = snd (Actions.submitVote env db id optionIndex)
             \/ db' = snd (Routes.Vote.POST env db id optionIndex) ->
             NoDup (map p_id (polls db'))).
  { intros db' H. destruct (submitVote_effect env db id optionIndex db' H)
      as [-> | [poll [n [_ [_ [_ ->]]]]]]; [assumption|].
    now destruct (insert_vote_shape env db id
                    (option_map u_id (auth_user (getUser env))) n) as [-> | ->]. }
  unfold mutated_stores. repeat constructor; auto 6.
Qed.

Lemma handlers_keep_primary_key_witness :
  Forall polls_primary_key
    (mutated_stores (env_of alice) db0 "p1" (poll_form " Lunch? " ["Soup "; "Salad"])
       (JNumber 0)).
Proof.
  apply (handlers_keep_primary_key (env_of alice) db0 "p1"
           (poll_form " Lunch? " ["Soup "; "Salad"]) (JNumber 0)).
  - exact db0_primary_key.
  - simpl. intuition discriminate.
Defined.

Lemma vote_route_same_store (env : Env) (db : Db) (id : string) (optionIndex : json_value) :
  snd (Routes.Vote.POST env db id optionIndex) = snd (Actions.submitVote env db id optionIndex).
Proof.
  unfold Routes.Vote.POST, Actions.submitVote, Store.insert_vote. case_store; reflexivity.
Qed.

(** Whatever the request, the votes table keeps at most one vote per
    poll and voter, the store answering the duplicate check: a signed-in
    caller's vote is inserted only when the check finds none. *)
Theorem handlers_keep_votes_unique (env : Env) (db : Db) (id : string)
        (formData : FormData) (optionIndex : json_value) :
  votes_unique db ->
  fault env SelectVote = None ->
  Forall votes_unique (mutated_stores env db id formData optionIndex).
Proof.
  intros Hu Hf. unfold votes_unique in *.
  assert (Hcreate : forall db',
             db' = snd (Actions.createPoll env db formData)
             \/ db' = snd (Routes.Polls.POST env db formData) -> NoDup (voter_keys (votes db'))).
  { intros db' H. destruct (createPoll_effect env db formData db' H)
      as [-> | [Hv [uid ->]]]; [assumption|].
    now destruct (insert_poll_polls env db uid
                    (trim (as_string (formData_get "question" formData)))
                    (map trim (filter truthy (formData_getAll "options" formData))))
      as [-> | ->]. }
  assert (Hupdate : forall db',
             db' = snd (Actions.updatePoll env db id formData)
             \/ db' = snd (Routes.PollId.PUT env db id formData) ->
             NoDup (voter_keys (votes db'))).
  { intros db' H. destruct (updatePoll_effect env db id formData db' H)
      as [-> | [Hv [uid ->]]]; [assumption|].
    match goal with
    | |- context [Store.update_poll ?e ?d ?i ?u ?q ?o] =>
        destruct (update_poll_shape e d i u q o) as [Hvotes _]
    end.
    now rewrite Hvotes. }
  assert (Hdelete : forall db',
             db' = snd (Actions.deletePoll env db id)
             \/ db' = snd (Routes.PollId.DELETE env db id)
             \/ db' = snd (Actions.adminDeletePoll env db id)
             \/ db' = snd (Routes.AdminPollId.DELETE env db id) ->
             NoDup (voter_keys (votes db'))).
  { intros db' H. destruct (delete_effect env db id db' H) as [-> | [m ->]]; [assumption|].
    destruct (delete_polls_shape env db m) as [-> | ->]; [assumption|].
    simpl. now apply voter_keys_filter. }
  pose proof (submitVote_keeps_votes_unique env db id optionIndex Hf Hu) as Hvote.
  unfold votes_unique in Hvote.
  unfold mutated_stores. repeat constructor; auto 6.
  now rewrite vote_route_same_store.
Qed.

Lemma handlers_keep_votes_unique_witness :
  Forall votes_unique
    (mutated_stores (env_of bob) db0 "p2" (poll_form " Lunch? " ["Soup "; "Salad"])
       (JNumber 0)).
Proof.
  apply (handlers_keep_votes_unique (env_of bob) db0 "p2"
           (poll_form " Lunch? " ["Soup "; "Salad"]) (JNumber 0)).
  - exact db0_votes_unique.
  - reflexivity.
Defined.

(** ** Voting twice *)

(** A signed-in caller with no vote yet on a poll of the store who
    votes for one of its options (the store answering) gets a null
    error and exactly one vote is added, with the caller as voter and
    the option index sent; any later vote of the same caller on that
    poll is refused with "You have already voted on this poll."
    (status 409) and adds nothing. *)
Theorem submitVote_once_then_conflict (env : Env) (db : Db) (u : User) (p : Poll) (i j : Z) :
  auth_user (getUser env) = Some u ->
  store_healthy env ->
  polls_primary_key db ->
  votes_unique db ->
  In p (polls db) ->
  p_id p <> "" ->
  (0 <= i < Z.of_nat (List.length (p_options p)))%Z ->
  (0 <= j < Z.of_nat (List.length (p_options p)))%Z ->
  (forall v, In v (votes db) -> v_poll_id v = p_id p -> v_user_id v <> Some (u_id u)) ->
  let cast := mkVote (new_id env) (p_id p) (Some (u_id u)) i (now env) in
  let db' := mkDb (polls db) (votes db ++ [cast]) in
  Actions.submitVote env db (p_id p) (JNumber i) = (None, db')
  /\ Routes.Vote.POST env db (p_id p) (JNumber i) = (json None 200, db')
  /\ Actions.submitVote env db' (p_id p) (JNumber j)
     = (Some "You have already voted on this poll.", db')
  /\ Routes.Vote.POST env db' (p_id p) (JNumber j)
     = (json (Some "You have already voted on this poll.") 409, db').
Proof.
  intros Hu Hh Hpk Huniq Hin Hid Hi Hj Hnone cast db'.
  assert (Hok : forall k, (0 <= k)%Z ->
                          negb (truthy (p_id p)) || not_number_or_negative (JNumber k) = false).
  { intros k Hk. destruct (p_id p); [congruence|]. simpl. apply Z.ltb_ge. lia. }
  assert (Hidx : forall k, (k < Z.of_nat (List.length (p_options p)))%Z ->
                 (Z.of_nat (List.length (p_options p)) <=? number_of (JNumber k))%Z = false).
  { intros k Hk. apply Z.leb_gt. simpl. lia. }
  assert (Hnovote : exists m, Store.select_vote env db (p_id p) (u_id u) = StoreError m).
  { unfold Store.select_vote, Store.request. rewrite (Hh SelectVote). simpl.
    rewrite filter_none; [eexists; reflexivity|].
    intros v Hv. apply not_true_is_false. intros Hm. apply andb_true_iff in Hm.
    destruct Hm as [Hp Hvu]. unfold Store.vote_on_poll in Hp. apply String.eqb_eq in Hp.
    unfold Store.vote_by_user in Hvu. destruct (v_user_id v) as [w|] eqn:Ew; [|discriminate].
    apply String.eqb_eq in Hvu. subst w. now apply (Hnone v Hv Hp). }
  destruct Hnovote as [m Hm].
  assert (Hfirst : Actions.submitVote env db (p_id p) (JNumber i) = (None, db')).
  { unfold Actions.submitVote, Store.insert_vote.
    rewrite (Hok i), (select_poll_present env db p (Hh SelectPoll) Hpk Hin), (Hidx i), Hu, Hm
      by lia.
    simpl. now rewrite (Hh InsertVote). }
  assert (Huniq' : votes_unique db').
  { pose proof (submitVote_keeps_votes_unique env db (p_id p) (JNumber i)
                  (Hh SelectVote) Huniq) as H.
    now rewrite Hfirst in H. }
  assert (Hsecond : Actions.submitVote env db' (p_id p) (JNumber j)
                    = (Some "You have already voted on this poll.", db')).
  { unfold Actions.submitVote.
    rewrite (Hok j) by lia.
    rewrite (select_poll_present env db' p (Hh SelectPoll) Hpk Hin), (Hidx j), Hu by lia.
    change (p_id p) with (v_poll_id cast) at 1.
    rewrite (select_vote_present env db' cast (u_id u) (Hh SelectVote) Huniq');
      [reflexivity | simpl; apply in_or_app; right; now left | reflexivity]. }
  repeat match goal with |- _ /\ _ => split end.
  - exact Hfirst.
  - unfold Routes.Vote.POST, Store.insert_vote.
    rewrite (Hok i), (select_poll_present env db p (Hh SelectPoll) Hpk Hin), (Hidx i), Hu, Hm
      by lia.
    simpl. now rewrite (Hh InsertVote).
  - exact Hsecond.
  - unfold Routes.Vote.POST.
    rewrite (Hok j) by lia.
    rewrite (select_poll_present env db' p (Hh SelectPoll) Hpk Hin), (Hidx j), Hu by lia.
    change (p_id p) with (v_poll_id cast) at 1.
    rewrite (select_vote_present env db' cast (u_id u) (Hh SelectVote) Huniq');
      [reflexivity | simpl; apply in_or_app; right; now left | reflexivity].
Qed.

Lemma submitVote_once_then_conflict_witness :
  Actions.submitVote (env_of carol) db0 "p2" (JNumber 2)
  = (None, mkDb (polls db0) (votes db0 ++ [mkVote "p9" "p2" (Some "carol") 2 900]))
  /\ Routes.Vote.POST (env_of carol) db0 "p2" (JNumber 2)
     = (json None 200, mkDb (polls db0) (votes db0 ++ [mkVote "p9" "p2" (Some "carol") 2 900]))
  /\ Actions.submitVote (env_of carol)
       (mkDb (polls db0) (votes db0 ++ [mkVote "p9" "p2" (Some "carol") 2 900]))
       "p2" (JNumber 0)
     = (Some "You have already voted on this poll.",
        mkDb (polls db0) (votes db0 ++ [mkVote "p9" "p2" (Some "carol") 2 900]))
  /\ Routes.Vote.POST (env_of carol)
       (mkDb (polls db0) (votes db0 ++ [mkVote "p9" "p2" (Some "carol") 2 900]))
       "p2" (JNumber 0)
     = (json (Some "You have already voted on this poll.") 409,
        mkDb (polls db0) (votes db0 ++ [mkVote "p9" "p2" (Some "carol") 2 900])).
Proof.
  apply (submitVote_once_then_conflict (env_of carol) db0 carol poll2 2%Z 0%Z).
  - reflexivity.
  - apply env_of_healthy.
  - exact db0_primary_key.
  - exact db0_votes_unique.
  - simpl. tauto.
  - discriminate.
  - simpl. lia.
  - simpl. lia.
  - intros v Hv. simpl in Hv. destruct Hv as [<- | [<- | []]]; discriminate.
Defined.

(** ** Saving a poll unchanged *)

(** The owner of a stored poll whose text is within the limits and
    trimmed, as the handlers store it, who submits the poll's own
    question and options (ids being a primary key, the store answering)
    gets a null error, status 200; afterwards the polls are the same
    rows in the same order with the id, owner, question, options and
    creation time each had, and the votes are as before. *)
Theorem updatePoll_same_text_keeps_polls (env : Env) (db : Db) (u : User) (p : Poll) :
  authenticated_as env u ->
  fault env SelectPoll = None ->
  fault env UpdatePoll = None ->
  polls_primary_key db ->
  In p (polls db) ->
  p_user_id p = u_id u ->
  poll_within_limits p ->
  poll_trimmed p ->
  exists db',
    Actions.updatePoll env db (p_id p) (poll_form (p_question p) (p_options p)) = (None, db')
    /\ Routes.PollId.PUT env db (p_id p) (poll_form (p_question p) (p_options p))
       = (json None 200, db')
    /\ map p_id (polls db') = map p_id (polls db)
    /\ map p_user_id (polls db') = map p_user_id (polls db)
    /\ map p_question (polls db') = map p_question (polls db)
    /\ map p_options (polls db') = map p_options (polls db)
    /\ map p_created_at (polls db') = map p_created_at (polls db)
    /\ votes db' = votes db.
Proof.
  intros Hauth Hfs Hfu Hpk Hin Hown [Hq [Hcount Hopts]] [Htq Hto].
  destruct (authenticated_fields env u Hauth) as [Hu He].
  assert (Hkeep : filter truthy (p_options p) = p_options p).
  { apply filter_all. intros o Ho. rewrite Forall_forall in Hopts.
    specialize (Hopts o Ho). destruct o; simpl in *; [lia | reflexivity]. }
  assert (Hv : validate_poll_input (Some (p_question p)) (p_options p) = None).
  { apply validate_poll_input_ok; try lia.
    - rewrite Htq. lia.
    - rewrite Forall_forall in *. intros o Ho. rewrite (Hto o Ho).
      specialize (Hopts o Ho). lia. }
  assert (Hmap : map trim (p_options p) = p_options p).
  { rewrite <- (map_id (p_options p)) at 2. apply map_ext_in.
    rewrite Forall_forall in Hto. exact Hto. }
  assert (Howner : negb (String.eqb (p_user_id p) (u_id u)) = false).
  { rewrite Hown, String.eqb_refl. reflexivity. }
  assert (Hsame : map (fun x : Poll =>
                         if Store.poll_has_id (p_id p) x && Store.poll_owned_by (u_id u) x
                         then mkPoll (p_id x) (p_user_id x) (p_question p) (p_options p)
                                     (p_created_at x)
                         else x) (polls db) = polls db).
  { rewrite <- (map_id (polls db)) at 2. apply map_ext_in. intros x Hx.
    unfold Store.poll_has_id.
    destruct (String.eqb_spec (p_id x) (p_id p)) as [E|E]; [|reflexivity].
    rewrite (primary_key_inj (polls db) p x Hpk Hin Hx E).
    destruct (Store.poll_owned_by (u_id u) p); [|reflexivity]. now destruct p. }
  exists db.
  unfold Actions.updatePoll, Routes.PollId.PUT, Store.update_poll.
  rewrite formData_get_poll_form, formData_getAll_poll_form, Hkeep, Hv, Hu, He.
  rewrite (select_poll_present env db p Hfs Hpk Hin), Howner, Hfu.
  simpl as_string. rewrite Htq, Hmap, Hsame. destruct db. repeat split.
Qed.

Lemma updatePoll_same_text_keeps_polls_witness :
  exists db',
    Actions.updatePoll (env_of alice) db0 "p1" (poll_form "Favorite color?" ["Red"; "Blue"])
    = (None, db')
    /\ Routes.PollId.PUT (env_of alice) db0 "p1" (poll_form "Favorite color?" ["Red"; "Blue"])
       = (json None 200, db')
    /\ map p_id (polls db') = map p_id (polls db0)
    /\ map p_user_id (polls db') = map p_user_id (polls db0)
    /\ map p_question (polls db') = map p_question (polls db0)
    /\ map p_options (polls db') = map p_options (polls db0)
    /\ map p_created_at (polls db') = map p_created_at (polls db0)
    /\ votes db' = votes db0.
Proof.
  apply (updatePoll_same_text_keeps_polls (env_of alice) db0 alice poll1).
  - reflexivity.
  - reflexivity.
  - reflexivity.
  - exact db0_primary_key.
  - simpl. tauto.
  - reflexivity.
  - unfold poll_within_limits. simpl. repeat constructor; simpl; lia.
  - unfold poll_trimmed. simpl. repeat constructor.
Defined.

(** ** Validation: the question and blank options *)

(** A form without a question field, or whose question is empty or all
    whitespace, is refused with "Question is required." (status 400) by
    every handler that takes a form, whatever the options and whoever
    the caller, and the store is unchanged. *)
Theorem question_required (env : Env) (db : Db) (id : string) (formData : FormData) :
  formData_get "question" formData = None
  \/ (exists q, formData_get "question" formData = Some q /\ trim q = "") ->
  Actions.createPoll env db formData = (Some "Question is required.", db)
  /\ Actions.updatePoll env db id formData = (Some "Question is required.", db)
  /\ Routes.Polls.POST env db formData = (json (Some "Question is required.") 400, db)
  /\ Routes.PollId.PUT env db id formData = (json (Some "Question is required.") 400, db).
Proof.
  intros Hq.
  assert (Hv : forall o, validate_poll_input (formData_get "question" formData) o
                         = Some "Question is required.").
  { intros o. destruct Hq as [-> | [q [-> Ht]]]; [reflexivity|].
    unfold validate_poll_input. rewrite Ht. simpl. now rewrite orb_true_r. }
  unfold Actions.createPoll, Actions.updatePoll, Routes.Polls.POST, Routes.PollId.PUT.
  rewrite Hv. repeat split.
Qed.

Lemma question_required_witness :
  Actions.createPoll (env_of alice) db0 (poll_form "   " ["Soup"; "Salad"])
  = (Some "Question is required.", db0)
  /\ Actions.updatePoll (env_of alice) db0 "p1" (poll_form "   " ["Soup"; "Salad"])
     = (Some "Question is required.", db0)
  /\ Routes.Polls.POST (env_of alice) db0 (poll_form "   " ["Soup"; "Salad"])
     = (json (Some "Question is required.") 400, db0)
  /\ Routes.PollId.PUT (env_of alice) db0 "p1" (poll_form "   " ["Soup"; "Salad"])
     = (json (Some "Question is required.") 400, db0).
Proof.
  apply (question_required (env_of alice) db0 "p1" (poll_form "   " ["Soup"; "Salad"])).
  right. exists "   ". split; reflexivity.
Defined.

(** An option that is not the empty string but is all whitespace is not
    dropped: a form with such an option is refused with a validation
    error (status 400) by every handler that takes a form, whatever the
    rest of the form, and the store is unchanged. *)
Theorem blank_option_rejected (env : Env) (db : Db) (id q : string) (opts : list string)
        (o : string) :
  In o opts -> o <> "" -> trim o = "" ->
  exists message,
    kind_of_message message = Some InvalidInput
    /\ Actions.createPoll env db (poll_form q opts) = (Some message, db)
    /\ Actions.updatePoll env db id (poll_form q opts) = (Some message, db)
    /\ Routes.Polls.POST env db (poll_form q opts) = (json (Some message) 400, db)
    /\ Routes.PollId.PUT env db id (poll_form q opts) = (json (Some message) 400, db).
Proof.
  intros Hin Hne Hblank.
  destruct (validate_poll_input (Some q) (filter truthy opts)) as [m|] eqn:Ev.
  - exists m. split; [now apply validate_poll_input_invalid in Ev|].
    unfold Actions.createPoll, Actions.updatePoll, Routes.Polls.POST, Routes.PollId.PUT.
    rewrite formData_get_poll_form, formData_getAll_poll_form, Ev. repeat split.
  - exfalso. apply validate_poll_input_passed in Ev.
    destruct Ev as [q' [_ [_ [_ [_ Hopts]]]]]. rewrite Forall_forall in Hopts.
    assert (Ho : In o (filter truthy opts)).
    { apply filter_In. split; [assumption|]. destruct o; [congruence | reflexivity]. }
    specialize (Hopts o Ho). rewrite Hblank in Hopts. simpl in Hopts. lia.
Qed.

Lemma blank_option_rejected_witness :
  exists message,
    kind_of_message message = Some InvalidInput
    /\ Actions.createPoll (env_of alice) db0 (poll_form "Lunch?" ["Soup"; "  "; "Salad"])
       = (Some message, db0)
    /\ Actions.updatePoll (env_of alice) db0 "p1" (poll_form "Lunch?" ["Soup"; "  "; "Salad"])
       = (Some message, db0)
    /\ Routes.Polls.POST (env_of alice) db0 (poll_form "Lunch?" ["Soup"; "  "; "Salad"])
       = (json (Some message) 400, db0)
    /\ Routes.PollId.PUT (env_of alice) db0 "p1" (poll_form "Lunch?" ["Soup"; "  "; "Salad"])
       = (json (Some message) 400, db0).
Proof.
  apply (blank_option_rejected (env_of alice) db0 "p1" "Lunch?" ["Soup"; "  "; "Salad"] "  ").
  - simpl. tauto.
  - discriminate.
  - reflexivity.
Defined.

Lemma deletePoll_error_iff_store_fault_witness :
  fst (Actions.deletePoll env_store_down db0 "p1")
  = Some "Failed to delete poll. You can only delete your own polls.".
Proof.
  apply (proj2 (deletePoll_error_iff_store_fault env_store_down db0 alice "p1" eq_refl)).
  exists store_internal_message. reflexivity.
Defined.

(** ** The session middleware *)

(** The middleware lets a request through, with the cookies the session
    client set, when the session has a user or the path starts with
    /login or /auth; otherwise it redirects to /login with the query
    string of the request, and a request for that target is let
    through for every session: the redirect never loops. *)
Theorem middleware_redirects_once (env : Env) (cookiesToSet : list (string * string))
        (url : Url) :
  match middleware env cookiesToSet url with
  | NextResponse_next cookies =>
      cookies = cookiesToSet
      /\ (auth_user (getUser env) <> None
          \/ String.prefix "/login" (pathname url) = true
          \/ String.prefix "/auth" (pathname url) = true)
  | NextResponse_redirect target =>
      auth_user (getUser env) = None
      /\ String.prefix "/login" (pathname url) = false
      /\ String.prefix "/auth" (pathname url) = false
      /\ target = mkUrl "/login" (search url)
      /\ forall env' cookies', middleware env' cookies' target = NextResponse_next cookies'
  end.
Proof.
  unfold middleware, updateSession.
  destruct (auth_user (getUser env)) as [u|].
  - split; [reflexivity|]. left. discriminate.
  - destruct (String.prefix "/login" (pathname url)) eqn:E1; simpl.
    + split; [reflexivity|]. right. now left.
    + destruct (String.prefix "/auth" (pathname url)) eqn:E2; simpl.
      * split; [reflexivity|]. right. now right.
      * repeat split. intros env' cookies'.
        destruct (auth_user (getUser env')); reflexivity.
Qed.

(** ** The poll pages *)

(** The edit page renders its form for a poll exactly when the detail
    page renders that poll with [canEdit] true, for every session and
    store; and one of them ends in [notFound()] exactly when the other
    does. *)
Theorem edit_page_agrees_with_canEdit (env : Env) (db : Db) (id : string) :
  (forall p,
      Pages.EditPollPageContent env db id = Render p
      <-> Pages.PollDetailPageContent env db id = Render (mkPollDetailClientProps p true))
  /\ (Pages.EditPollPageContent env db id = NotFoundPage
      <-> Pages.PollDetailPageContent env db id = NotFoundPage).
Proof.
  unfold Pages.EditPollPageContent, Pages.PollDetailPageContent, Actions.getPollById,
    getCurrentUser, same_user.
  destruct (Store.select_poll env db id) as [poll|m]; simpl.
  - destruct (auth_user (getUser env)) as [u|]; simpl.
    + rewrite (String.eqb_sym (u_id u) (p_user_id poll)).
      destruct (String.eqb (p_user_id poll) (u_id u)); simpl; split;
        try (intros p; split; intros H; inversion H; reflexivity);
        split; discriminate.
    + split; [intros p; split; intros H; inversion H | split; discriminate].
  - split; [intros p; split; discriminate | tauto].
Qed.

(** Whoever is shown the edit form can save it: when the edit page
    renders for a session without error, [updatePoll] with a form that
    passes validation succeeds for that session (the store answering
    the update), status 200. *)
Theorem edit_page_then_update (env : Env) (db : Db) (id : string) (p : Poll)
        (q : string) (opts : list string) :
  Pages.EditPollPageContent env db id = Render p ->
  auth_error (getUser env) = None ->
  fault env UpdatePoll = None ->
  validate_poll_input (Some q) (filter truthy opts) = None ->
  fst (Actions.updatePoll env db id (poll_form q opts)) = None
  /\ fst (Routes.PollId.PUT env db id (poll_form q opts)) = json None 200.
Proof.
  unfold Pages.EditPollPageContent, Actions.getPollById, getCurrentUser.
  intros Hpage He Hf Hv.
  destruct (Store.select_poll env db id) as [poll|m] eqn:Hsel; simpl in Hpage;
    [|discriminate].
  destruct (auth_user (getUser env)) as [u|] eqn:Hu; [|discriminate].
  destruct (String.eqb (p_user_id poll) (u_id u)) eqn:Hown; simpl in Hpage; [|discriminate].
  unfold Actions.updatePoll, Routes.PollId.PUT, Store.update_poll.
  rewrite formData_get_poll_form, formData_getAll_poll_form, Hv, He, Hu, Hsel, Hown, Hf.
  split; reflexivity.
Qed.

Lemma edit_page_then_update_witness :
  fst (Actions.updatePoll (env_of alice) db0 "p1" (poll_form "Lunch?" ["Soup"; "Salad"])) = None
  /\ fst (Routes.PollId.PUT (env_of alice) db0 "p1" (poll_form "Lunch?" ["Soup"; "Salad"]))
     = json None 200.
Proof.
  apply (edit_page_then_update (env_of alice) db0 "p1" poll1 "Lunch?" ["Soup"; "Salad"]).
  - reflexivity.
  - reflexivity.
  - reflexivity.
  - reflexivity.
Defined.

(** Whoever is shown the Delete button can delete: when the detail page
    renders a poll with [canEdit] true for a session without error, a
    confirmed [handleDelete] removes the poll and the votes on it and
    nothing else (ids being a primary key, the store answering) and
    sends the router to /polls; an unconfirmed one does nothing. *)
Theorem detail_page_delete (env : Env) (db : Db) (id : string)
        (props : PollDetailClientProps) :
  Pages.PollDetailPageContent env db id = Render props ->
  props_canEdit props = true ->
  auth_error (getUser env) = None ->
  fault env DeletePoll = None ->
  polls_primary_key db ->
  In (props_poll props) (polls db)
  /\ p_id (props_poll props) = id
  /\ Pages.PollDetailClient_handleDelete env db props true
     = (Some "/polls", mkDb (polls_except id (polls db)) (votes_except id (votes db)))
  /\ Pages.PollDetailClient_handleDelete env db props false = (None, db).
Proof.
  unfold Pages.PollDetailPageContent, Actions.getPollById, same_user.
  intros Hpage Hedit He Hf Hpk.
  destruct (Store.select_poll env db id) as [poll|m] eqn:Hsel; simpl in Hpage;
    [|discriminate].
  injection Hpage as <-. simpl in *.
  destruct (auth_user (getUser env)) as [u|] eqn:Hu; [|discriminate].
  rewrite (String.eqb_sym (u_id u) (p_user_id poll)) in Hedit.
  destruct (String.eqb_spec (p_user_id poll) (u_id u)) as [Hown|]; [|discriminate].
  destruct (select_poll_found env db id poll Hsel) as [Hin Hid].
  repeat match goal with |- _ /\ _ => split end; try assumption; try reflexivity.
  unfold Pages.PollDetailClient_handleDelete, Actions.deletePoll. simpl.
  rewrite He, Hu, Hid.
  rewrite (delete_polls_by_id env db _ poll Hf Hin); [now rewrite Hid|].
  intros x Hx. rewrite Hid. unfold Store.poll_has_id, Store.poll_owned_by.
  destruct (String.eqb_spec (p_id x) id) as [E|E]; [|reflexivity].
  rewrite <- Hid in E. rewrite (primary_key_inj (polls db) poll x Hpk Hin Hx E).
  simpl. now apply String.eqb_eq.
Qed.

Lemma detail_page_delete_witness :
  Pages.PollDetailClient_handleDelete (env_of alice) db0 (mkPollDetailClientProps poll1 true)
    true
  = (Some "/polls", mkDb [poll2; poll3] []).
Proof.
  destruct (detail_page_delete (env_of alice) db0 "p1" (mkPollDetailClientProps poll1 true))
    as [_ [_ [H _]]].
  - reflexivity.
  - reflexivity.
  - reflexivity.
  - reflexivity.
  - exact db0_primary_key.
  - exact H.
Defined.

(** ** The admin page *)

Lemma insert_desc_before_older (p : Poll) (l : list Poll) :
  Forall (fun q => (p_created_at q < p_created_at p)%Z) l ->
  Store.insert_desc p l = p :: l.
Proof.
  intros H. destruct l as [|q l]; [reflexivity|]. simpl.
  apply Forall_inv in H. apply Z.ltb_lt in H. now rewrite H.
Qed.

Lemma filter_insert_desc (f : Poll -> bool) (p : Poll) (l : list Poll) :
  created_at_desc l ->
  filter f (Store.insert_desc p l)
  = if f p then Store.insert_desc p (filter f l) else filter f l.
Proof.
  unfold created_at_desc. induction l as [|q l IH]; intros Hs.
  - simpl. now destruct (f p).
  - pose proof (StronglySorted_inv Hs) as [Hl Hq]. simpl Store.insert_desc.
    destruct (p_created_at q <? p_created_at p)%Z eqn:E.
    + apply Z.ltb_lt in E.
      change (filter f (p :: q :: l)) with (if f p then p :: filter f (q :: l)
                                            else filter f (q :: l)).
      destruct (f p); [|reflexivity]. symmetry. apply insert_desc_before_older.
      apply Forall_forall. intros x Hx. apply filter_In in Hx. destruct Hx as [Hx _].
      destruct Hx as [<- | Hx]; [assumption|].
      rewrite Forall_forall in Hq. specialize (Hq x Hx). lia.
    + change (filter f (q :: Store.insert_desc p l))
        with (if f q then q :: filter f (Store.insert_desc p l)
              else filter f (Store.insert_desc p l)).
      rewrite (IH Hl). simpl filter. destruct (f q), (f p); try reflexivity.
      simpl. now rewrite E.
Qed.

(** Selecting rows and ordering them by [created_at] commute. *)
Lemma filter_order_created_at_desc (f : Poll -> bool) (l : list Poll) :
  filter f (Store.order_created_at_desc l) = Store.order_created_at_desc (filter f l).
Proof.
  induction l as [|p l IH]; [reflexivity|].
  simpl Store.order_created_at_desc at 1.
  rewrite filter_insert_desc by apply order_created_at_desc_sorted.
  rewrite IH. simpl filter. now destruct (f p).
Qed.

(** For an admin and a store that answers: after the admin page has
    loaded the polls and [handleDelete] has run for an id, the list the
    page keeps is the loaded polls without those of that id, still
    newest first; every poll in it is in the store as it now is, and
    the page shows the success message and no error. *)
Theorem admin_page_delete_lists_stored_polls (env : Env) (db : Db) (u : User) (id : string)
        (st : AdminPageState) :
  authenticated_as env u ->
  (exists e, u_email u = Some e /\ In e adminEmails) ->
  fault env SelectAllPolls = None ->
  fault env DeletePoll = None ->
  let loaded := Pages.AdminPage_fetchAllPolls env db st in
  let after := Pages.AdminPage_handleDelete env db loaded id in
  (forall p, In p (st_polls (fst after)) <-> In p (polls db) /\ p_id p <> id)
  /\ (forall p, In p (st_polls (fst after)) -> In p (polls (snd after)))
  /\ created_at_desc (st_polls (fst after))
  /\ st_error (fst after) = None
  /\ st_success (fst after) = Some "Poll deleted successfully!"
  /\ st_deleteLoading (fst after) = None.
Proof.
  intros Hauth Hadmin Hfs Hfd loaded after.
  destruct (authenticated_fields env u Hauth) as [Hu He].
  apply (isUserAdmin_iff env u Hu) in Hadmin.
  assert (Hloaded : st_polls loaded = Store.order_created_at_desc (polls db)).
  { unfold loaded, Pages.AdminPage_fetchAllPolls, Actions.getAllPolls,
      Store.select_all_polls, Store.request.
    now rewrite Hu, He, Hadmin, Hfs. }
  assert (Hafter : after
                   = (mkAdminPageState
                        (filter (fun poll => negb (String.eqb (p_id poll) id)) (st_polls loaded))
                        (st_loading loaded) None None (Some "Poll deleted successfully!"),
                      mkDb (filter (fun p => negb (Store.poll_has_id id p)) (polls db))
                           (filter (fun v => negb (existsb
                                                     (fun p => Store.poll_has_id id p
                                                               && String.eqb (p_id p) (v_poll_id v))
                                                     (polls db)))
                                   (votes db)))).
  { unfold after, Pages.AdminPage_handleDelete, Actions.adminDeletePoll, Store.delete_polls.
    now rewrite Hu, He, Hadmin, Hfd. }
  assert (Hmem : forall p,
             In p (filter (fun poll => negb (String.eqb (p_id poll) id))
                          (Store.order_created_at_desc (polls db)))
             <-> In p (polls db) /\ p_id p <> id).
  { intros p. rewrite filter_In, negb_true_iff, String.eqb_neq.
    split; intros [Hp Hne]; (split; [|assumption]).
    - eapply Permutation_in; [symmetry; apply order_created_at_desc_perm | exact Hp].
    - eapply Permutation_in; [apply order_created_at_desc_perm | exact Hp]. }
  rewrite Hafter, Hloaded. simpl.
  repeat match goal with |- _ /\ _ => split end; try reflexivity.
  - apply Hmem.
  - intros p Hp. apply Hmem in Hp. destruct Hp as [Hp Hne].
    apply filter_In. split; [assumption|]. apply negb_true_iff.
    now apply String.eqb_neq.
  - rewrite filter_order_created_at_desc. apply order_created_at_desc_sorted.
Qed.

Lemma admin_page_delete_lists_stored_polls_witness :
  st_success (fst (Pages.AdminPage_handleDelete (env_of root) db0
                     (Pages.AdminPage_fetchAllPolls (env_of root) db0 Pages.AdminPage_initial)
                     "p3"))
  = Some "Poll deleted successfully!"
  /\ st_deleteLoading (fst (Pages.AdminPage_handleDelete (env_of root) db0
                              (Pages.AdminPage_fetchAllPolls (env_of root) db0
                                 Pages.AdminPage_initial)
                              "p3"))
     = None.
Proof.
  apply (admin_page_delete_lists_stored_polls (env_of root) db0 root "p3"
           Pages.AdminPage_initial).
  - reflexivity.
  - exists "root@alxpolly.com". split; [reflexivity | simpl; tauto].
  - reflexivity.
  - reflexivity.
Defined.

(** For a signed-in caller who is not an admin, the admin page loads no
    poll and shows "Admin access required."; its [handleDelete] shows
    the same error, keeps the list and leaves the store unchanged. *)
Theorem admin_page_refuses_non_admin (env : Env) (db : Db) (u : User) (id : string)
        (st : AdminPageState) :
  authenticated_as env u ->
  (forall e, u_email u = Some e -> ~ In e adminEmails) ->
  Pages.AdminPage_fetchAllPolls env db Pages.AdminPage_initial
  = mkAdminPageState [] false None (Some "Admin access required.") None
  /\ Pages.AdminPage_handleDelete env db st id
     = (mkAdminPageState (st_polls st) (st_loading st) None
          (Some "Admin access required.") None,
        db).
Proof.
  intros Hauth Hno. destruct (authenticated_fields env u Hauth) as [Hu He].
  pose proof (isUserAdmin_false env u Hu Hno) as Hadm.
  unfold Pages.AdminPage_fetchAllPolls, Pages.AdminPage_handleDelete,
    Actions.getAllPolls, Actions.adminDeletePoll.
  rewrite Hu, He, Hadm. split; reflexivity.
Qed.

Lemma admin_page_refuses_non_admin_witness :
  Pages.AdminPage_fetchAllPolls (env_of bob) db0 Pages.AdminPage_initial
  = mkAdminPageState [] false None (Some "Admin access required.") None
  /\ Pages.AdminPage_handleDelete (env_of bob) db0 Pages.AdminPage_initial "p1"
     = (mkAdminPageState [] true None (Some "Admin access required.") None, db0).
Proof.
  apply (admin_page_refuses_non_admin (env_of bob) db0 bob "p1" Pages.AdminPage_initial).
  - reflexivity.
  - intros e [= <-]. simpl. intuition discriminate.
Defined.
